(** * Consensus parameters of CometBFT: [types/params.go]

    A shallow embedding of the consensus-parameter module (the parameter
    set, its validation, the height-gated update check, the merger, the
    header hash and the wire codec) and the properties of it that the
    specification states.

    Conventions.
    - Go's [int64], [uint64] and [time.Duration] values are embedded as [Z];
      the module performs no arithmetic on them, only comparisons and
      copies, so no wrap-around occurs.
    - A Go [error] result is an [option error] ([None] is [nil]).
    - A function that can panic returns an [outcome].
    - A [[]string] is a slice header pointing into a heap of backing
      arrays, so that sharing between a parameter set, a delta and a
      result is visible. *)

From Stdlib Require Import ZArith Lia.
From Stdlib.Strings Require Import Byte Ascii.
From stdpp Require Import base option list gmap strings.

Local Open Scope string_scope.
Local Open Scope Z_scope.

(** ** The Go runtime notions the module relies on *)

Module Go.

(** Arguments of a [fmt.Errorf] call. *)
Inductive fmt_arg : Type :=
| ArgInt (z : Z)
| ArgDuration (d : Z)
| ArgString (s : string).

(** Error values: [errors.New(msg)] and [fmt.Errorf(format, args...)]. *)
Inductive error : Type :=
| errors_New (msg : string)
| fmt_Errorf (format : string) (args : list fmt_arg).

(** What a panic carries: the argument of an explicit [panic(err)], or the
    runtime error of a nil-pointer dereference. *)
Inductive panic_value : Type :=
| PanicError (e : error)
| PanicNilDereference.

Inductive outcome (A : Type) : Type :=
| Returns (a : A)
| Panics (v : panic_value).
Arguments Returns {A} a.
Arguments Panics {A} v.

Definition bind {A B : Type} (m : outcome A) (k : A -> outcome B) : outcome B :=
  match m with
  | Returns a => k a
  | Panics v => Panics v
  end.

(** Reading through a pointer: [nil] panics. *)
Definition deref {A : Type} (p : option A) : outcome A :=
  match p with
  | Some a => Returns a
  | None => Panics PanicNilDereference
  end.

(** [x != nil] *)
Definition non_nil {A : Type} (p : option A) : bool :=
  match p with
  | Some _ => true
  | None => false
  end.

(** *** Slices of strings

    A slice header is a pointer to a backing array and a length; the nil
    slice has no pointer.  Capacity and offsets are left out: the module
    never reslices and never appends to a slice it received. *)
Abbreviation loc := positive (only parsing).

Record slice : Type := Slice { slice_ptr : option loc; slice_len : nat }.

Abbreviation heap := (gmap loc (list string)) (only parsing).

(** The address every zero-sized allocation shares ([runtime.zerobase]). *)
Definition zerobase : loc := 1%positive.

Definition nil_slice : slice := Slice None 0.

(** [[]string{}] *)
Definition empty_slice : slice := Slice (Some zerobase) 0.

(** The elements [s[0]], ..., [s[len(s)-1]]. *)
Definition slice_elems (σ : heap) (s : slice) : list string :=
  match slice_ptr s with
  | None => []
  | Some l => take (slice_len s) (default [] (σ !! l))
  end.

(** A header is backed when its array is allocated and long enough. *)
Definition slice_backed (σ : heap) (s : slice) : Prop :=
  slice_len s = 0%nat \/
  exists l arr, slice_ptr s = Some l /\ σ !! l = Some arr /\
                (slice_len s <= length arr)%nat.

(** A fresh array holding [xs]. *)
Definition alloc (σ : heap) (xs : list string) : loc * heap :=
  let l := fresh ({[zerobase]} ∪ dom σ) in
  (l, <[l := xs]> σ).

(** [[]string{x1, ..., xn}] *)
Definition slice_lit (σ : heap) (xs : list string) : slice * heap :=
  match xs with
  | [] => (empty_slice, σ)
  | _ => let '(l, σ') := alloc σ xs in (Slice (Some l) (length xs), σ')
  end.

(** [append([]string{}, s...)]: the empty literal has no capacity, so a
    non-empty [s] is copied into a fresh array; an empty [s] gives back
    the empty literal. *)
Definition append_to_empty (σ : heap) (s : slice) : slice * heap :=
  match slice_len s with
  | O => (empty_slice, σ)
  | S _ => let '(l, σ') := alloc σ (slice_elems σ s) in
           (Slice (Some l) (slice_len s), σ')
  end.

End Go.
Export Go.

Notation "'let*' x ':=' m 'in' k" := (Go.bind m (fun x => k))
  (at level 10, x name, m at level 100, k at level 200,
   format "'let*'  x  ':='  m  'in'  '/' k").

(** ** The wire messages *)

(** Modelled from the spec: the wire-format messages [cmtproto.*] are
    generated code that is not part of the sources at hand.  Every sub-group
    of a [ConsensusParams] message "may be absent" (a nil pointer), the two
    Synchrony durations are individually optional, and the getters are the
    nil-safe ones of generated code.  The fields are those the module reads
    and writes. *)
Module cmtproto.

Module BlockParams.
Record t : Type := mk { MaxBytes : Z; MaxGas : Z }.
End BlockParams.

Module EvidenceParams.
Record t : Type := mk { MaxAgeNumBlocks : Z; MaxAgeDuration : Z; MaxBytes : Z }.
End EvidenceParams.

Module ValidatorParams.
Record t : Type := mk { PubKeyTypes : slice }.
End ValidatorParams.

Module VersionParams.
Record t : Type := mk { App : Z }.
End VersionParams.

Module ABCIParams.
Record t : Type := mk { VoteExtensionsEnableHeight : Z }.

Definition GetVoteExtensionsEnableHeight (m : option t) : Z :=
  match m with
  | Some a => VoteExtensionsEnableHeight a
  | None => 0
  end.
End ABCIParams.

Module SynchronyParams.
Record t : Type := mk { Precision : option Z; MessageDelay : option Z }.

Definition GetMessageDelay (m : option t) : option Z :=
  match m with
  | Some s => MessageDelay s
  | None => None
  end.

Definition GetPrecision (m : option t) : option Z :=
  match m with
  | Some s => Precision s
  | None => None
  end.
End SynchronyParams.

Module PBTSParams.
Record t : Type := mk { PbtsEnableHeight : Z }.

Definition GetPbtsEnableHeight (m : option t) : Z :=
  match m with
  | Some p => PbtsEnableHeight p
  | None => 0
  end.
End PBTSParams.

Module ConsensusParams.
Record t : Type := mk {
  Block : option BlockParams.t;
  Evidence : option EvidenceParams.t;
  Validator : option ValidatorParams.t;
  Version : option VersionParams.t;
  Abci : option ABCIParams.t;
  Synchrony : option SynchronyParams.t;
  Pbts : option PBTSParams.t
}.
End ConsensusParams.

Module HashedParams.
Record t : Type := mk { BlockMaxBytes : Z; BlockMaxGas : Z }.
End HashedParams.

End cmtproto.

(** ** The parameter set *)

(** [MaxBlockSizeBytes = 100 * 1024 * 1024] *)
Definition MaxBlockSizeBytes : Z := 100 * 1024 * 1024.

Module BlockParams.
Record t : Type := mk { MaxBytes : Z; MaxGas : Z }.
End BlockParams.

Module EvidenceParams.
Record t : Type := mk { MaxAgeNumBlocks : Z; MaxAgeDuration : Z; MaxBytes : Z }.
End EvidenceParams.

Module ValidatorParams.
Record t : Type := mk { PubKeyTypes : slice }.
End ValidatorParams.

Module VersionParams.
Record t : Type := mk { App : Z }.
End VersionParams.

Module ABCIParams.
Record t : Type := mk { VoteExtensionsEnableHeight : Z }.
End ABCIParams.

Module PBTSParams.
Record t : Type := mk { PBTSEnableHeight : Z }.
End PBTSParams.

Module SynchronyParams.
Record t : Type := mk { Precision : Z; MessageDelay : Z }.
End SynchronyParams.

Module ConsensusParams.
Record t : Type := mk {
  Block : BlockParams.t;
  Evidence : EvidenceParams.t;
  Validator : ValidatorParams.t;
  Version : VersionParams.t;
  ABCI : ABCIParams.t;
  Synchrony : SynchronyParams.t;
  PBTS : PBTSParams.t
}.

(** Assignments to one sub-group of a copy. *)
Definition set_Block (b : BlockParams.t) (c : t) : t :=
  mk b (Evidence c) (Validator c) (Version c) (ABCI c) (Synchrony c) (PBTS c).
Definition set_Evidence (e : EvidenceParams.t) (c : t) : t :=
  mk (Block c) e (Validator c) (Version c) (ABCI c) (Synchrony c) (PBTS c).
Definition set_Validator (v : ValidatorParams.t) (c : t) : t :=
  mk (Block c) (Evidence c) v (Version c) (ABCI c) (Synchrony c) (PBTS c).
Definition set_Version (v : VersionParams.t) (c : t) : t :=
  mk (Block c) (Evidence c) (Validator c) v (ABCI c) (Synchrony c) (PBTS c).
Definition set_ABCI (a : ABCIParams.t) (c : t) : t :=
  mk (Block c) (Evidence c) (Validator c) (Version c) a (Synchrony c) (PBTS c).
Definition set_Synchrony (s : SynchronyParams.t) (c : t) : t :=
  mk (Block c) (Evidence c) (Validator c) (Version c) (ABCI c) s (PBTS c).
Definition set_PBTS (p : PBTSParams.t) (c : t) : t :=
  mk (Block c) (Evidence c) (Validator c) (Version c) (ABCI c) (Synchrony c) p.
End ConsensusParams.

(** ** Activation predicates *)

Definition VoteExtensionsEnabled (a : ABCIParams.t) (h : Z) : outcome bool :=
  if h <? 1 then
    Panics (PanicError
      (fmt_Errorf "cannot check if vote extensions enabled for height %d (< 1)" [ArgInt h]))
  else if ABCIParams.VoteExtensionsEnableHeight a =? 0 then
    Returns false
  else
    Returns (ABCIParams.VoteExtensionsEnableHeight a <=? h).

Definition PBTSEnabled (p : PBTSParams.t) (h : Z) : outcome bool :=
  if h <? 1 then
    Panics (PanicError
      (fmt_Errorf "cannot check if PBTS enabled for height %d (< 1)" [ArgInt h]))
  else if PBTSParams.PBTSEnableHeight p =? 0 then
    Returns false
  else
    Returns (PBTSParams.PBTSEnableHeight p <=? h).

(** ** Known key types *)

(** The key-type identifiers and display names are constants of the
    packages [crypto/ed25519] and [crypto/secp256k1]; the module only
    compares them, so they are parameters of the development. *)
Class KeyTypes : Type := {
  ed25519_KeyType : string;
  ed25519_PubKeyName : string;
  secp256k1_KeyType : string;
  secp256k1_PubKeyName : string
}.

Section WithKeyTypes.
Context `{KeyTypes}.

Definition ABCIPubKeyTypeEd25519 : string := ed25519_KeyType.
Definition ABCIPubKeyTypeSecp256k1 : string := secp256k1_KeyType.

Definition ABCIPubKeyTypesToNames : gmap string string :=
  {[ ABCIPubKeyTypeEd25519 := ed25519_PubKeyName;
     ABCIPubKeyTypeSecp256k1 := secp256k1_PubKeyName ]}.

(** ** Defaults *)

Definition Millisecond : Z := 1000000.
Definition Second : Z := 1000 * Millisecond.
Definition Hour : Z := 3600 * Second.

Definition DefaultBlockParams : BlockParams.t :=
  {| BlockParams.MaxBytes := 4194304; BlockParams.MaxGas := 10000000 |}.

Definition DefaultEvidenceParams : EvidenceParams.t :=
  {| EvidenceParams.MaxAgeNumBlocks := 100000;
     EvidenceParams.MaxAgeDuration := 48 * Hour;
     EvidenceParams.MaxBytes := 1048576 |}.

Definition DefaultValidatorParams (σ : heap) : ValidatorParams.t * heap :=
  let '(s, σ') := slice_lit σ [ABCIPubKeyTypeEd25519] in
  ({| ValidatorParams.PubKeyTypes := s |}, σ').

Definition DefaultVersionParams : VersionParams.t :=
  {| VersionParams.App := 0 |}.

Definition DefaultABCIParams : ABCIParams.t :=
  {| ABCIParams.VoteExtensionsEnableHeight := 0 |}.

Definition DefaultSynchronyParams : SynchronyParams.t :=
  {| SynchronyParams.Precision := 500 * Millisecond;
     SynchronyParams.MessageDelay := 2 * Second |}.

Definition DefaultPBTSParams : PBTSParams.t :=
  {| PBTSParams.PBTSEnableHeight := 0 |}.

Definition DefaultConsensusParams (σ : heap) : ConsensusParams.t * heap :=
  let '(validator, σ') := DefaultValidatorParams σ in
  ({| ConsensusParams.Block := DefaultBlockParams;
      ConsensusParams.Evidence := DefaultEvidenceParams;
      ConsensusParams.Validator := validator;
      ConsensusParams.Version := DefaultVersionParams;
      ConsensusParams.ABCI := DefaultABCIParams;
      ConsensusParams.Synchrony := DefaultSynchronyParams;
      ConsensusParams.PBTS := DefaultPBTSParams |}, σ').

(** ** ValidateBasic *)

(** The loop over [params.Validator.PubKeyTypes], from index [i] on. *)
Fixpoint check_pub_key_types (i : nat) (keyTypes : list string) : option error :=
  match keyTypes with
  | [] => None
  | keyType :: rest =>
      match ABCIPubKeyTypesToNames !! keyType with
      | None =>
          Some (fmt_Errorf "params.Validator.PubKeyTypes[%d], %s, is an unknown pubkey type"
                           [ArgInt (Z.of_nat i); ArgString keyType])
      | Some _ => check_pub_key_types (S i) rest
      end
  end.

Definition ValidateBasic (σ : heap) (params : ConsensusParams.t) : option error :=
  let block := ConsensusParams.Block params in
  let evidence := ConsensusParams.Evidence params in
  let abci := ConsensusParams.ABCI params in
  let synchrony := ConsensusParams.Synchrony params in
  let pbts := ConsensusParams.PBTS params in
  let pubKeyTypes := ValidatorParams.PubKeyTypes (ConsensusParams.Validator params) in
  if BlockParams.MaxBytes block =? 0 then
    Some (fmt_Errorf "block.MaxBytes cannot be 0" [])
  else if BlockParams.MaxBytes block <? -1 then
    Some (fmt_Errorf "block.MaxBytes must be -1 or greater than 0. Got %d"
                     [ArgInt (BlockParams.MaxBytes block)])
  else if MaxBlockSizeBytes <? BlockParams.MaxBytes block then
    Some (fmt_Errorf "block.MaxBytes is too big. %d > %d"
                     [ArgInt (BlockParams.MaxBytes block); ArgInt MaxBlockSizeBytes])
  else if BlockParams.MaxGas block <? -1 then
    Some (fmt_Errorf "block.MaxGas must be greater or equal to -1. Got %d"
                     [ArgInt (BlockParams.MaxGas block)])
  else if EvidenceParams.MaxAgeNumBlocks evidence <=? 0 then
    Some (fmt_Errorf "evidence.MaxAgeNumBlocks must be greater than 0. Got %d"
                     [ArgInt (EvidenceParams.MaxAgeNumBlocks evidence)])
  else if EvidenceParams.MaxAgeDuration evidence <=? 0 then
    Some (fmt_Errorf "evidence.MaxAgeDuration must be greater than 0 if provided, Got %v"
                     [ArgDuration (EvidenceParams.MaxAgeDuration evidence)])
  else
    let maxBytes :=
      if BlockParams.MaxBytes block =? -1 then MaxBlockSizeBytes
      else BlockParams.MaxBytes block in
    if maxBytes <? EvidenceParams.MaxBytes evidence then
      Some (fmt_Errorf "evidence.MaxBytesEvidence is greater than upper bound, %d > %d"
                       [ArgInt (EvidenceParams.MaxBytes evidence);
                        ArgInt (BlockParams.MaxBytes block)])
    else if EvidenceParams.MaxBytes evidence <? 0 then
      Some (fmt_Errorf "evidence.MaxBytes must be non negative. Got: %d"
                       [ArgInt (EvidenceParams.MaxBytes evidence)])
    else if ABCIParams.VoteExtensionsEnableHeight abci <? 0 then
      Some (fmt_Errorf "ABCI.VoteExtensionsEnableHeight cannot be negative. Got: %d"
                       [ArgInt (ABCIParams.VoteExtensionsEnableHeight abci)])
    else if SynchronyParams.MessageDelay synchrony <=? 0 then
      Some (fmt_Errorf "synchrony.MessageDelay must be greater than 0. Got: %d"
                       [ArgDuration (SynchronyParams.MessageDelay synchrony)])
    else if SynchronyParams.Precision synchrony <=? 0 then
      Some (fmt_Errorf "synchrony.Precision must be greater than 0. Got: %d"
                       [ArgDuration (SynchronyParams.Precision synchrony)])
    else if PBTSParams.PBTSEnableHeight pbts <? 0 then
      Some (fmt_Errorf "PBTS.PBTSEnableHeight must not be negative. Got: %d"
                       [ArgInt (PBTSParams.PBTSEnableHeight pbts)])
    else if Nat.eqb (slice_len pubKeyTypes) 0 then
      Some (errors_New "len(Validator.PubKeyTypes) must be greater than 0")
    else
      check_pub_key_types 0 (slice_elems σ pubKeyTypes).

End WithKeyTypes.

(** ** ValidateUpdate *)

Definition validateUpdateABCI (params : ConsensusParams.t)
    (updated : option cmtproto.ConsensusParams.t) (h : Z) : outcome (option error) :=
  let* u := deref updated in
  let* abci := deref (cmtproto.ConsensusParams.Abci u) in
  let cur := ABCIParams.VoteExtensionsEnableHeight (ConsensusParams.ABCI params) in
  let next := cmtproto.ABCIParams.VoteExtensionsEnableHeight abci in
  if cur =? next then
    Returns None
  else if negb (cur =? 0) && (next =? 0) then
    Returns (Some (errors_New "vote extensions cannot be disabled once enabled"))
  else if next <=? h then
    Returns (Some (fmt_Errorf
      "VoteExtensionsEnableHeight cannot be updated to a past height, initial height: %d, current height %d"
      [ArgInt cur; ArgInt h]))
  else if cur <=? h then
    Returns (Some (fmt_Errorf
      "VoteExtensionsEnableHeight cannot be modified oncethe initial height has occurred, initial height: %d, current height %d"
      [ArgInt cur; ArgInt h]))
  else
    Returns None.

Definition validateUpdatePBTS (params : ConsensusParams.t)
    (updated : option cmtproto.ConsensusParams.t) (h : Z) : outcome (option error) :=
  let cur := PBTSParams.PBTSEnableHeight (ConsensusParams.PBTS params) in
  if negb (cur =? 0) then
    Returns (Some (errors_New "pbts already enabled"))
  else
    let* u := deref updated in
    let* pbts := deref (cmtproto.ConsensusParams.Pbts u) in
    if cmtproto.PBTSParams.PbtsEnableHeight pbts <=? h then
      Returns (Some (fmt_Errorf
        "PbtsEnableHeight cannot be updated to a past height, pbts enabled height: %d, current height %d"
        [ArgInt cur; ArgInt h]))
    else
      Returns None.

Definition ValidateUpdate (params : ConsensusParams.t)
    (updated : option cmtproto.ConsensusParams.t) (h : Z) : outcome (option error) :=
  let* u := deref updated in
  let* err :=
    (if non_nil (cmtproto.ConsensusParams.Abci u)
     then validateUpdateABCI params updated h
     else Returns None) in
  match err with
  | Some e => Returns (Some e)
  | None =>
      if non_nil (cmtproto.ConsensusParams.Pbts u)
      then validateUpdatePBTS params updated h
      else Returns err
  end.

(** The ABCI guard lets the delta through: the Abci sub-message is absent,
    or [validateUpdateABCI] returns no error. *)
Definition abci_guard_passes (params : ConsensusParams.t)
    (u : cmtproto.ConsensusParams.t) (h : Z) : Prop :=
  cmtproto.ConsensusParams.Abci u = None \/
  validateUpdateABCI params (Some u) h = Returns None.

(** ** Hash *)

(** The serialiser of [cmtproto.HashedParams] and the hash function behind
    [tmhash.New] belong to other packages; [Hash] is stated against their
    interfaces: [Marshal] gives bytes and an error, a hasher is created,
    written to (giving a byte count and an error) and summed. *)
Class HashedParamsMarshaler : Type := {
  Marshal : cmtproto.HashedParams.t -> list byte * option error
}.

Class Hasher : Type := {
  hash_state : Type;
  tmhash_New : hash_state;
  hash_Write : hash_state -> list byte -> hash_state * (nat * option error);
  hash_Sum : hash_state -> list byte -> list byte
}.

Section WithHasher.
Context `{HashedParamsMarshaler} `{Hasher}.

Definition Hash (params : ConsensusParams.t) : outcome (list byte) :=
  let hasher := tmhash_New in
  let hp := {| cmtproto.HashedParams.BlockMaxBytes :=
                 BlockParams.MaxBytes (ConsensusParams.Block params);
               cmtproto.HashedParams.BlockMaxGas :=
                 BlockParams.MaxGas (ConsensusParams.Block params) |} in
  let '(bz, err) := Marshal hp in
  match err with
  | Some e => Panics (PanicError e)
  | None =>
      let '(hasher, (_, err)) := hash_Write hasher bz in
      match err with
      | Some e => Panics (PanicError e)
      | None => Returns (hash_Sum hasher [])
      end
  end.

End WithHasher.

(** ** Update *)

Definition Update (σ : heap) (params : ConsensusParams.t)
    (params2 : option cmtproto.ConsensusParams.t) : ConsensusParams.t * heap :=
  let res := params in
  match params2 with
  | None => (res, σ)
  | Some params2 =>
      let res :=
        match cmtproto.ConsensusParams.Block params2 with
        | Some b =>
            ConsensusParams.set_Block
              {| BlockParams.MaxBytes := cmtproto.BlockParams.MaxBytes b;
                 BlockParams.MaxGas := cmtproto.BlockParams.MaxGas b |} res
        | None => res
        end in
      let res :=
        match cmtproto.ConsensusParams.Evidence params2 with
        | Some e =>
            ConsensusParams.set_Evidence
              {| EvidenceParams.MaxAgeNumBlocks := cmtproto.EvidenceParams.MaxAgeNumBlocks e;
                 EvidenceParams.MaxAgeDuration := cmtproto.EvidenceParams.MaxAgeDuration e;
                 EvidenceParams.MaxBytes := cmtproto.EvidenceParams.MaxBytes e |} res
        | None => res
        end in
      let '(res, σ) :=
        match cmtproto.ConsensusParams.Validator params2 with
        | Some v =>
            let '(copy, σ') := append_to_empty σ (cmtproto.ValidatorParams.PubKeyTypes v) in
            (ConsensusParams.set_Validator {| ValidatorParams.PubKeyTypes := copy |} res, σ')
        | None => (res, σ)
        end in
      let res :=
        match cmtproto.ConsensusParams.Version params2 with
        | Some v =>
            ConsensusParams.set_Version
              {| VersionParams.App := cmtproto.VersionParams.App v |} res
        | None => res
        end in
      let res :=
        match cmtproto.ConsensusParams.Abci params2 with
        | Some _ =>
            ConsensusParams.set_ABCI
              {| ABCIParams.VoteExtensionsEnableHeight :=
                   cmtproto.ABCIParams.GetVoteExtensionsEnableHeight
                     (cmtproto.ConsensusParams.Abci params2) |} res
        | None => res
        end in
      let res :=
        match cmtproto.ConsensusParams.Synchrony params2 with
        | Some s =>
            let res :=
              match cmtproto.SynchronyParams.GetMessageDelay (Some s) with
              | Some d =>
                  ConsensusParams.set_Synchrony
                    {| SynchronyParams.Precision :=
                         SynchronyParams.Precision (ConsensusParams.Synchrony res);
                       SynchronyParams.MessageDelay := d |} res
              | None => res
              end in
            match cmtproto.SynchronyParams.GetPrecision (Some s) with
            | Some d =>
                ConsensusParams.set_Synchrony
                  {| SynchronyParams.Precision := d;
                     SynchronyParams.MessageDelay :=
                       SynchronyParams.MessageDelay (ConsensusParams.Synchrony res) |} res
            | None => res
            end
        | None => res
        end in
      let res :=
        match cmtproto.ConsensusParams.Pbts params2 with
        | Some _ =>
            ConsensusParams.set_PBTS
              {| PBTSParams.PBTSEnableHeight :=
                   cmtproto.PBTSParams.GetPbtsEnableHeight
                     (cmtproto.ConsensusParams.Pbts params2) |} res
        | None => res
        end in
      (res, σ)
  end.

(** ** Codec *)

Definition ToProto (params : ConsensusParams.t) : cmtproto.ConsensusParams.t :=
  let block := ConsensusParams.Block params in
  let evidence := ConsensusParams.Evidence params in
  {| cmtproto.ConsensusParams.Block := Some
       {| cmtproto.BlockParams.MaxBytes := BlockParams.MaxBytes block;
          cmtproto.BlockParams.MaxGas := BlockParams.MaxGas block |};
     cmtproto.ConsensusParams.Evidence := Some
       {| cmtproto.EvidenceParams.MaxAgeNumBlocks := EvidenceParams.MaxAgeNumBlocks evidence;
          cmtproto.EvidenceParams.MaxAgeDuration := EvidenceParams.MaxAgeDuration evidence;
          cmtproto.EvidenceParams.MaxBytes := EvidenceParams.MaxBytes evidence |};
     cmtproto.ConsensusParams.Validator := Some
       {| cmtproto.ValidatorParams.PubKeyTypes :=
            ValidatorParams.PubKeyTypes (ConsensusParams.Validator params) |};
     cmtproto.ConsensusParams.Version := Some
       {| cmtproto.VersionParams.App := VersionParams.App (ConsensusParams.Version params) |};
     cmtproto.ConsensusParams.Abci := Some
       {| cmtproto.ABCIParams.VoteExtensionsEnableHeight :=
            ABCIParams.VoteExtensionsEnableHeight (ConsensusParams.ABCI params) |};
     cmtproto.ConsensusParams.Synchrony := Some
       {| cmtproto.SynchronyParams.MessageDelay :=
            Some (SynchronyParams.MessageDelay (ConsensusParams.Synchrony params));
          cmtproto.SynchronyParams.Precision :=
            Some (SynchronyParams.Precision (ConsensusParams.Synchrony params)) |};
     cmtproto.ConsensusParams.Pbts := Some
       {| cmtproto.PBTSParams.PbtsEnableHeight :=
            PBTSParams.PBTSEnableHeight (ConsensusParams.PBTS params) |} |}.

Definition ConsensusParamsFromProto (pbParams : cmtproto.ConsensusParams.t)
    : outcome ConsensusParams.t :=
  let* block := deref (cmtproto.ConsensusParams.Block pbParams) in
  let* evidence := deref (cmtproto.ConsensusParams.Evidence pbParams) in
  let* validator := deref (cmtproto.ConsensusParams.Validator pbParams) in
  let* version := deref (cmtproto.ConsensusParams.Version pbParams) in
  let c :=
    {| ConsensusParams.Block :=
         {| BlockParams.MaxBytes := cmtproto.BlockParams.MaxBytes block;
            BlockParams.MaxGas := cmtproto.BlockParams.MaxGas block |};
       ConsensusParams.Evidence :=
         {| EvidenceParams.MaxAgeNumBlocks := cmtproto.EvidenceParams.MaxAgeNumBlocks evidence;
            EvidenceParams.MaxAgeDuration := cmtproto.EvidenceParams.MaxAgeDuration evidence;
            EvidenceParams.MaxBytes := cmtproto.EvidenceParams.MaxBytes evidence |};
       ConsensusParams.Validator :=
         {| ValidatorParams.PubKeyTypes := cmtproto.ValidatorParams.PubKeyTypes validator |};
       ConsensusParams.Version :=
         {| VersionParams.App := cmtproto.VersionParams.App version |};
       ConsensusParams.ABCI := {| ABCIParams.VoteExtensionsEnableHeight := 0 |};
       ConsensusParams.Synchrony :=
         {| SynchronyParams.Precision := 0; SynchronyParams.MessageDelay := 0 |};
       ConsensusParams.PBTS := {| PBTSParams.PBTSEnableHeight := 0 |} |} in
  let c :=
    match cmtproto.ConsensusParams.Abci pbParams with
    | Some _ =>
        ConsensusParams.set_ABCI
          {| ABCIParams.VoteExtensionsEnableHeight :=
               cmtproto.ABCIParams.GetVoteExtensionsEnableHeight
                 (cmtproto.ConsensusParams.Abci pbParams) |} c
    | None => c
    end in
  let c :=
    match cmtproto.ConsensusParams.Synchrony pbParams with
    | Some s =>
        let c :=
          match cmtproto.SynchronyParams.GetMessageDelay (Some s) with
          | Some d =>
              ConsensusParams.set_Synchrony
                {| SynchronyParams.Precision :=
                     SynchronyParams.Precision (ConsensusParams.Synchrony c);
                   SynchronyParams.MessageDelay := d |} c
          | None => c
          end in
        match cmtproto.SynchronyParams.GetPrecision (Some s) with
        | Some d =>
            ConsensusParams.set_Synchrony
              {| SynchronyParams.Precision := d;
                 SynchronyParams.MessageDelay :=
                   SynchronyParams.MessageDelay (ConsensusParams.Synchrony c) |} c
        | None => c
        end
    | None => c
    end in
  let c :=
    match cmtproto.ConsensusParams.Pbts pbParams with
    | Some _ =>
        ConsensusParams.set_PBTS
          {| PBTSParams.PBTSEnableHeight :=
               cmtproto.PBTSParams.GetPbtsEnableHeight
                 (cmtproto.ConsensusParams.Pbts pbParams) |} c
    | None => c
    end in
  Returns c.

(** ** Sample data *)

Module Sample.

Definition key_types : KeyTypes :=
  {| ed25519_KeyType := "ed25519";
     ed25519_PubKeyName := "tendermint/PubKeyEd25519";
     secp256k1_KeyType := "secp256k1";
     secp256k1_PubKeyName := "tendermint/PubKeySecp256k1" |}.

(** The default set, allocated in an empty heap. *)
Definition defaults : ConsensusParams.t := fst (@DefaultConsensusParams key_types ∅).
Definition defaults_heap : heap := snd (@DefaultConsensusParams key_types ∅).

Definition with_vote_extensions (cur : Z) (p : ConsensusParams.t) : ConsensusParams.t :=
  ConsensusParams.set_ABCI {| ABCIParams.VoteExtensionsEnableHeight := cur |} p.

Definition with_pbts (cur : Z) (p : ConsensusParams.t) : ConsensusParams.t :=
  ConsensusParams.set_PBTS {| PBTSParams.PBTSEnableHeight := cur |} p.

Definition no_change : cmtproto.ConsensusParams.t :=
  cmtproto.ConsensusParams.mk None None None None None None None.

(** A delta with only the Abci sub-message. *)
Definition abci_delta (next : Z) : cmtproto.ConsensusParams.t :=
  cmtproto.ConsensusParams.mk None None None None
    (Some {| cmtproto.ABCIParams.VoteExtensionsEnableHeight := next |}) None None.

(** A delta with only the Pbts sub-message. *)
Definition pbts_delta (next : Z) : cmtproto.ConsensusParams.t :=
  cmtproto.ConsensusParams.mk None None None None None None
    (Some {| cmtproto.PBTSParams.PbtsEnableHeight := next |}).

(** A delta with both the Abci and the Pbts sub-messages. *)
Definition abci_pbts_delta (abci pbts : Z) : cmtproto.ConsensusParams.t :=
  cmtproto.ConsensusParams.mk None None None None
    (Some {| cmtproto.ABCIParams.VoteExtensionsEnableHeight := abci |}) None
    (Some {| cmtproto.PBTSParams.PbtsEnableHeight := pbts |}).

(** The default set with another [Evidence.MaxAgeDuration] (one hour). *)
Definition one_hour_evidence : ConsensusParams.t :=
  ConsensusParams.set_Evidence
    {| EvidenceParams.MaxAgeNumBlocks := 100000;
       EvidenceParams.MaxAgeDuration := 3600000000000;
       EvidenceParams.MaxBytes := 1048576 |} defaults.

(** Eight little-endian bytes of a 64-bit integer. *)
Definition le_bytes (z : Z) : list byte :=
  map (fun i : nat =>
         default Byte.x00 (Byte.of_N (Z.to_N (Z.land (Z.shiftr z (8 * Z.of_nat i)) 255))))
      (seq 0 8).

(** An encoder and a hasher to run [Hash] with: the two fields one after
    the other, and a hasher that keeps what was written. *)
Definition marshaler : HashedParamsMarshaler :=
  {| Marshal hp :=
       ((le_bytes (cmtproto.HashedParams.BlockMaxBytes hp) ++
         le_bytes (cmtproto.HashedParams.BlockMaxGas hp))%list, None) |}.

Definition hasher : Hasher :=
  {| hash_state := list byte;
     tmhash_New := [];
     hash_Write st bz := ((st ++ bz)%list, (length bz, None));
     hash_Sum st b := (b ++ st)%list |}.

(** The default set with [Evidence.MaxBytes] lowered to 0. *)
Definition evidence_max_bytes_zero : ConsensusParams.t :=
  ConsensusParams.set_Evidence
    {| EvidenceParams.MaxAgeNumBlocks := 100000;
       EvidenceParams.MaxAgeDuration := 172800000000000;
       EvidenceParams.MaxBytes := 0 |} defaults.

End Sample.

(** ** Block parts and key-type lookup *)

(** [BlockPartSizeBytes uint32 = 65536] *)
Definition BlockPartSizeBytes : Z := 65536.

(** [MaxBlockPartsCount = (MaxBlockSizeBytes / BlockPartSizeBytes) + 1] *)
Definition MaxBlockPartsCount : Z := (MaxBlockSizeBytes / BlockPartSizeBytes) + 1.

(** The loop of [IsValidPubkeyType] over the elements still to visit. *)
Fixpoint pubkey_type_listed (pubkeyType : string) (keyTypes : list string) : bool :=
  match keyTypes with
  | [] => false
  | keyType :: rest =>
      if String.eqb keyType pubkeyType then true
      else pubkey_type_listed pubkeyType rest
  end.

Definition IsValidPubkeyType (σ : heap) (params : ValidatorParams.t)
    (pubkeyType : string) : bool :=
  pubkey_type_listed pubkeyType (slice_elems σ (ValidatorParams.PubKeyTypes params)).

(** ** The forum application's vote extensions

    [ExtendVote] and [VerifyVoteExtension] of the forum application, as
    given in [docs/guides/abci/forum-application/7.vote-extension.md].
    Byte slices converted with [string(...)] and [[]byte(...)] are kept as
    strings, which are byte sequences on both sides. *)
Module Forum.

(** [strings.Split(s, sep)] for a one-byte separator: the pieces of [s]
    between the separators, in order; a string without separator, the
    empty string included, is a single piece. *)
Fixpoint strings_Split (s : string) (sep : Ascii.ascii) : list string :=
  match s with
  | EmptyString => [EmptyString]
  | String c rest =>
      if Ascii.eqb c sep then EmptyString :: strings_Split rest sep
      else match strings_Split rest sep with
           | word :: words => String c word :: words
           | [] => [String c EmptyString]
           end
  end.

(** [strings.Join(words, sep)], the inverse of the above. *)
Fixpoint strings_Join (words : list string) (sep : Ascii.ascii) : string :=
  match words with
  | [] => EmptyString
  | [word] => word
  | word :: rest => (word ++ String sep (strings_Join rest sep))%string
  end.

Inductive VerifyStatus : Type :=
| ResponseVerifyVoteExtension_ACCEPT
| ResponseVerifyVoteExtension_REJECT.

Record RequestVerifyVoteExtension : Type := {
  ValidatorAddress : string;
  VoteExtension : string
}.

(** The two fields of the application that the handlers read; the type of
    public keys plays no part. *)
Record ForumApp (PubKey : Type) : Type := {
  CurseWords : string;
  valAddrToPubKeyMap : gmap string PubKey
}.
Arguments CurseWords {PubKey} _.
Arguments valAddrToPubKeyMap {PubKey} _.

(** The vote extension of the response, and the error. *)
Definition ExtendVote {PubKey : Type} (app : ForumApp PubKey) : string * option error :=
  (CurseWords app, None).

(** The loop [for _, word := range curseWords { tmpCurseWordMap[word] = struct{}{} }]. *)
Definition curse_word_map (curseWords : list string) : gmap string unit :=
  foldl (fun m word => <[word := tt]> m) ∅ curseWords.

Definition VerifyVoteExtension {PubKey : Type} (app : ForumApp PubKey)
    (req : RequestVerifyVoteExtension) : outcome (VerifyStatus * option error) :=
  match valAddrToPubKeyMap app !! ValidatorAddress req with
  | None => Panics (PanicError (fmt_Errorf "unknown validator" []))
  | Some _ =>
      let curseWords := strings_Split (VoteExtension req) "|"%char in
      let tmpCurseWordMap := curse_word_map curseWords in
      if (size tmpCurseWordMap <? length curseWords)%nat
      then Returns (ResponseVerifyVoteExtension_REJECT, None)
      else Returns (ResponseVerifyVoteExtension_ACCEPT, None)
  end.

End Forum.

(** * Properties *)

(** Case analysis on every integer comparison in sight. *)
Ltac zcases :=
  repeat match goal with
    | |- context [ (?a =? ?b)%Z ] => destruct (Z.eqb_spec a b)
    | |- context [ (?a <=? ?b)%Z ] => destruct (Z.leb_spec a b)
    | |- context [ (?a <? ?b)%Z ] => destruct (Z.ltb_spec a b)
    end; simpl; try lia; try reflexivity.

Example sample_defaults_valid :
  @ValidateBasic Sample.key_types Sample.defaults_heap Sample.defaults = None.
Proof. vm_compute. reflexivity. Qed.

Example sample_scheduled_reschedule :
  ValidateUpdate (Sample.with_vote_extensions 300 Sample.defaults)
                 (Some (Sample.abci_delta 99)) 11 = Returns None.
Proof. reflexivity. Qed.

(** ** Activation predicates *)

(** C8: [VoteExtensionsEnabled a h] panics when [h < 1]; for [h >= 1] it
    returns [false] when the enable height is 0 and otherwise whether the
    enable height is at most [h].  [PBTSEnabled] has the same shape over
    [PBTSEnableHeight]. *)
Theorem activation_predicates (a : ABCIParams.t) (p : PBTSParams.t) (h : Z) :
  (h < 1 -> (exists v, VoteExtensionsEnabled a h = Panics v) /\
            (exists v, PBTSEnabled p h = Panics v)) /\
  (1 <= h ->
     (ABCIParams.VoteExtensionsEnableHeight a = 0 ->
        VoteExtensionsEnabled a h = Returns false) /\
     (ABCIParams.VoteExtensionsEnableHeight a <> 0 ->
        VoteExtensionsEnabled a h =
        Returns (bool_decide (ABCIParams.VoteExtensionsEnableHeight a <= h))) /\
     (PBTSParams.PBTSEnableHeight p = 0 -> PBTSEnabled p h = Returns false) /\
     (PBTSParams.PBTSEnableHeight p <> 0 ->
        PBTSEnabled p h = Returns (bool_decide (PBTSParams.PBTSEnableHeight p <= h)))).
Proof.
  unfold VoteExtensionsEnabled, PBTSEnabled. split.
  - intros Hh. destruct (Z.ltb_spec h 1); [eauto | lia].
  - intros Hh. destruct (Z.ltb_spec h 1); [lia |].
    repeat split; intros Hcur.
    + rewrite Hcur. reflexivity.
    + destruct (Z.eqb_spec (ABCIParams.VoteExtensionsEnableHeight a) 0); [done |].
      f_equal. destruct (Z.leb_spec (ABCIParams.VoteExtensionsEnableHeight a) h).
      * by rewrite bool_decide_eq_true_2.
      * rewrite bool_decide_eq_false_2; [done | lia].
    + rewrite Hcur. reflexivity.
    + destruct (Z.eqb_spec (PBTSParams.PBTSEnableHeight p) 0); [done |].
      f_equal. destruct (Z.leb_spec (PBTSParams.PBTSEnableHeight p) h).
      * by rewrite bool_decide_eq_true_2.
      * rewrite bool_decide_eq_false_2; [done | lia].
Qed.

Lemma activation_predicates_witness :
  (exists v, VoteExtensionsEnabled (ABCIParams.mk 5) 0 = Panics v) /\
  VoteExtensionsEnabled (ABCIParams.mk 0) 7 = Returns false /\
  VoteExtensionsEnabled (ABCIParams.mk 5) 7 = Returns true /\
  VoteExtensionsEnabled (ABCIParams.mk 9) 7 = Returns false /\
  PBTSEnabled (PBTSParams.mk 0) 7 = Returns false /\
  PBTSEnabled (PBTSParams.mk 7) 7 = Returns true.
Proof.
  split.
  { apply (activation_predicates (ABCIParams.mk 5) (PBTSParams.mk 0) 0). lia. }
  split.
  { apply (activation_predicates (ABCIParams.mk 0) (PBTSParams.mk 0) 7); [lia | reflexivity]. }
  split.
  { apply (activation_predicates (ABCIParams.mk 5) (PBTSParams.mk 0) 7); simpl; lia. }
  split.
  { apply (activation_predicates (ABCIParams.mk 9) (PBTSParams.mk 0) 7); simpl; lia. }
  split.
  { apply (activation_predicates (ABCIParams.mk 0) (PBTSParams.mk 0) 7); [lia | reflexivity]. }
  apply (activation_predicates (ABCIParams.mk 0) (PBTSParams.mk 7) 7); simpl; lia.
Defined.

(** ** ValidateUpdate *)

(** The ABCI guard on a delta that carries the Abci sub-message never
    panics, and is decided by four comparisons. *)
Lemma validateUpdateABCI_present params u abci h :
  cmtproto.ConsensusParams.Abci u = Some abci ->
  let cur := ABCIParams.VoteExtensionsEnableHeight (ConsensusParams.ABCI params) in
  let next := cmtproto.ABCIParams.VoteExtensionsEnableHeight abci in
  (cur = next -> validateUpdateABCI params (Some u) h = Returns None) /\
  (cur <> next -> cur <> 0 -> next = 0 ->
     validateUpdateABCI params (Some u) h =
     Returns (Some (errors_New "vote extensions cannot be disabled once enabled"))) /\
  (cur <> next -> next <= h ->
     exists e, validateUpdateABCI params (Some u) h = Returns (Some e)) /\
  (cur <> next -> cur <= h ->
     exists e, validateUpdateABCI params (Some u) h = Returns (Some e)) /\
  (next <> 0 -> h < next -> h < cur ->
     validateUpdateABCI params (Some u) h = Returns None).
Proof.
  intros Habci cur next. unfold validateUpdateABCI. simpl. rewrite Habci. simpl.
  fold cur next. repeat split; intros; zcases; eauto.
Qed.

(** On a present delta, [ValidateUpdate] runs the ABCI guard when the Abci
    sub-message is there, stops at its error, and otherwise runs the PBTS
    guard when the Pbts sub-message is there. *)
Lemma ValidateUpdate_present params u h :
  ValidateUpdate params (Some u) h =
  match cmtproto.ConsensusParams.Abci u with
  | Some _ =>
      match validateUpdateABCI params (Some u) h with
      | Returns None =>
          if non_nil (cmtproto.ConsensusParams.Pbts u)
          then validateUpdatePBTS params (Some u) h
          else Returns None
      | r => r
      end
  | None =>
      if non_nil (cmtproto.ConsensusParams.Pbts u)
      then validateUpdatePBTS params (Some u) h
      else Returns None
  end.
Proof.
  unfold ValidateUpdate. simpl.
  destruct (cmtproto.ConsensusParams.Abci u); simpl; [| reflexivity].
  destruct (validateUpdateABCI params (Some u) h) as [[e |] | v]; reflexivity.
Qed.

(** C1: with vote extensions disabled (current enable height 0), a delta
    that schedules them at a height strictly above [h] is turned down: the
    last comparison of the ABCI guard, [cur <= h], also holds for [cur = 0].
    At current value 0, [h = 10], proposed value 50 the result is the
    "cannot be modified once the initial height has occurred" error. *)
Theorem ValidateUpdate_enable_from_zero params u abci h :
  ABCIParams.VoteExtensionsEnableHeight (ConsensusParams.ABCI params) = 0 ->
  1 <= h ->
  cmtproto.ConsensusParams.Abci u = Some abci ->
  h < cmtproto.ABCIParams.VoteExtensionsEnableHeight abci ->
  ValidateUpdate params (Some u) h =
  Returns (Some (fmt_Errorf
    "VoteExtensionsEnableHeight cannot be modified oncethe initial height has occurred, initial height: %d, current height %d"
    [ArgInt 0; ArgInt h])).
Proof.
  intros Hcur Hh Habci Hnext.
  rewrite ValidateUpdate_present, Habci.
  unfold validateUpdateABCI. simpl. rewrite Habci. simpl. rewrite Hcur.
  zcases.
Qed.

Lemma ValidateUpdate_enable_from_zero_witness :
  ValidateUpdate Sample.defaults (Some (Sample.abci_delta 50)) 10 =
  Returns (Some (fmt_Errorf
    "VoteExtensionsEnableHeight cannot be modified oncethe initial height has occurred, initial height: %d, current height %d"
    [ArgInt 0; ArgInt 10])).
Proof.
  apply (ValidateUpdate_enable_from_zero Sample.defaults (Sample.abci_delta 50)
           (cmtproto.ABCIParams.mk 50) 10); [reflexivity | lia | reflexivity | simpl; lia].
Defined.

(** C2, as stated, fails: a delta that proposes the current value again is
    accepted although the feature is already active (current 5, height 10,
    proposed 5). *)
Lemma ValidateUpdate_active_same_value_accepted :
  ABCIParams.VoteExtensionsEnableHeight
    (ConsensusParams.ABCI (Sample.with_vote_extensions 5 Sample.defaults)) <> 0 /\
  ABCIParams.VoteExtensionsEnableHeight
    (ConsensusParams.ABCI (Sample.with_vote_extensions 5 Sample.defaults)) <= 10 /\
  cmtproto.ConsensusParams.Abci (Sample.abci_delta 5) =
    Some (cmtproto.ABCIParams.mk 5) /\
  ValidateUpdate (Sample.with_vote_extensions 5 Sample.defaults)
    (Some (Sample.abci_delta 5)) 10 = Returns None.
Proof. simpl. repeat split; lia. Qed.

(** C2, amended: once the feature is active ([cur <> 0] and [cur <= h]),
    every delta whose Abci sub-message proposes a value other than [cur] is
    rejected; a delta that proposes [cur] again passes the ABCI guard, and
    the result is then that of the PBTS guard, or success when the Pbts
    sub-message is absent. *)
Theorem ValidateUpdate_active_rejects_change params u abci h :
  ABCIParams.VoteExtensionsEnableHeight (ConsensusParams.ABCI params) <> 0 ->
  ABCIParams.VoteExtensionsEnableHeight (ConsensusParams.ABCI params) <= h ->
  1 <= h ->
  cmtproto.ConsensusParams.Abci u = Some abci ->
  (cmtproto.ABCIParams.VoteExtensionsEnableHeight abci <>
   ABCIParams.VoteExtensionsEnableHeight (ConsensusParams.ABCI params) ->
     exists e, ValidateUpdate params (Some u) h = Returns (Some e)) /\
  (cmtproto.ABCIParams.VoteExtensionsEnableHeight abci =
   ABCIParams.VoteExtensionsEnableHeight (ConsensusParams.ABCI params) ->
     ValidateUpdate params (Some u) h =
     if non_nil (cmtproto.ConsensusParams.Pbts u)
     then validateUpdatePBTS params (Some u) h
     else Returns None).
Proof.
  intros Hcur Hle Hh Habci.
  pose proof (validateUpdateABCI_present params u abci h Habci) as (Heq & _ & _ & Hact & _).
  rewrite ValidateUpdate_present, Habci. split; intros Hn.
  - destruct Hact as [e He]; [congruence | lia |]. rewrite He. eauto.
  - rewrite Heq by congruence. reflexivity.
Qed.

Lemma ValidateUpdate_active_rejects_change_witness :
  (exists e, ValidateUpdate (Sample.with_vote_extensions 50 Sample.defaults)
               (Some (Sample.abci_delta 200)) 60 = Returns (Some e)) /\
  ValidateUpdate (Sample.with_vote_extensions 50 Sample.defaults)
    (Some (Sample.abci_delta 50)) 60 = Returns None.
Proof.
  split.
  - apply (ValidateUpdate_active_rejects_change
             (Sample.with_vote_extensions 50 Sample.defaults) (Sample.abci_delta 200)
             (cmtproto.ABCIParams.mk 200) 60); simpl; (lia || reflexivity).
  - apply (ValidateUpdate_active_rejects_change
             (Sample.with_vote_extensions 50 Sample.defaults) (Sample.abci_delta 50)
             (cmtproto.ABCIParams.mk 50) 60); simpl; (lia || reflexivity).
Defined.

(** C4: when the current enable height is not 0, a delta whose Abci
    sub-message proposes 0 is rejected with the "cannot be disabled"
    error, at every height [h >= 1]. *)
Theorem ValidateUpdate_no_disable params u abci h :
  ABCIParams.VoteExtensionsEnableHeight (ConsensusParams.ABCI params) <> 0 ->
  1 <= h ->
  cmtproto.ConsensusParams.Abci u = Some abci ->
  cmtproto.ABCIParams.VoteExtensionsEnableHeight abci = 0 ->
  ValidateUpdate params (Some u) h =
  Returns (Some (errors_New "vote extensions cannot be disabled once enabled")).
Proof.
  intros Hcur Hh Habci Hnext.
  pose proof (validateUpdateABCI_present params u abci h Habci) as (_ & Hdis & _).
  rewrite ValidateUpdate_present, Habci, Hdis by congruence. reflexivity.
Qed.

Lemma ValidateUpdate_no_disable_witness :
  ValidateUpdate (Sample.with_vote_extensions 50 Sample.defaults)
    (Some (Sample.abci_delta 0)) 10 =
  Returns (Some (errors_New "vote extensions cannot be disabled once enabled")).
Proof.
  apply (ValidateUpdate_no_disable (Sample.with_vote_extensions 50 Sample.defaults)
           (Sample.abci_delta 0) (cmtproto.ABCIParams.mk 0) 10);
    simpl; (lia || reflexivity).
Defined.

(** The PBTS guard on a delta that carries the Pbts sub-message. *)
Lemma validateUpdatePBTS_present params u pbts h :
  cmtproto.ConsensusParams.Pbts u = Some pbts ->
  (PBTSParams.PBTSEnableHeight (ConsensusParams.PBTS params) <> 0 ->
     validateUpdatePBTS params (Some u) h =
     Returns (Some (errors_New "pbts already enabled"))) /\
  (PBTSParams.PBTSEnableHeight (ConsensusParams.PBTS params) = 0 ->
     cmtproto.PBTSParams.PbtsEnableHeight pbts <= h ->
     exists e, validateUpdatePBTS params (Some u) h = Returns (Some e)) /\
  (PBTSParams.PBTSEnableHeight (ConsensusParams.PBTS params) = 0 ->
     h < cmtproto.PBTSParams.PbtsEnableHeight pbts ->
     validateUpdatePBTS params (Some u) h = Returns None).
Proof.
  intros Hpbts. unfold validateUpdatePBTS.
  repeat split; intros Hcur.
  - destruct (Z.eqb_spec (PBTSParams.PBTSEnableHeight (ConsensusParams.PBTS params)) 0);
      [done | reflexivity].
  - intros Hnext. rewrite Hcur. simpl. rewrite Hpbts. simpl. zcases. eauto.
  - intros Hnext. rewrite Hcur. simpl. rewrite Hpbts. simpl. zcases.
Qed.

(** C3, as stated, fails: with PBTS disabled and a proposed PBTS height
    above [h], the delta is still rejected when its Abci sub-message fails
    the ABCI guard, which runs first (vote extensions active since 5,
    height 10, delta proposing vote extensions at 20 and PBTS at 50). *)
Lemma ValidateUpdate_pbts_future_rejected_by_abci :
  PBTSParams.PBTSEnableHeight
    (ConsensusParams.PBTS (Sample.with_vote_extensions 5 Sample.defaults)) = 0 /\
  cmtproto.ConsensusParams.Pbts (Sample.abci_pbts_delta 20 50) =
    Some (cmtproto.PBTSParams.mk 50) /\
  10 < 50 /\
  ValidateUpdate (Sample.with_vote_extensions 5 Sample.defaults)
    (Some (Sample.abci_pbts_delta 20 50)) 10 =
  Returns (Some (fmt_Errorf
    "VoteExtensionsEnableHeight cannot be modified oncethe initial height has occurred, initial height: %d, current height %d"
    [ArgInt 5; ArgInt 10])).
Proof. repeat split; reflexivity. Qed.

(** C3, amended: for a delta whose Pbts sub-message is present and every
    height [h >= 1]: the ABCI guard either lets the delta through or fails
    with an error, and in the second case [ValidateUpdate] returns that
    very error; if the current PBTS enable height is not 0 the delta is
    rejected whatever it proposes, with "pbts already enabled" when the
    ABCI guard lets it through; if the current PBTS enable height is 0 the
    delta is accepted exactly when the proposed PBTS height is strictly
    above [h] and the ABCI guard lets it through, and a proposed height
    at or below [h] that gets past the ABCI guard is rejected with the
    "past height" error of the PBTS guard. *)
Theorem ValidateUpdate_pbts params u pbts h :
  1 <= h ->
  cmtproto.ConsensusParams.Pbts u = Some pbts ->
  (abci_guard_passes params u h \/
   (cmtproto.ConsensusParams.Abci u <> None /\
    exists e, validateUpdateABCI params (Some u) h = Returns (Some e))) /\
  (forall e,
     cmtproto.ConsensusParams.Abci u <> None ->
     validateUpdateABCI params (Some u) h = Returns (Some e) ->
     ValidateUpdate params (Some u) h = Returns (Some e)) /\
  (PBTSParams.PBTSEnableHeight (ConsensusParams.PBTS params) <> 0 ->
     (exists e, ValidateUpdate params (Some u) h = Returns (Some e)) /\
     (abci_guard_passes params u h ->
        ValidateUpdate params (Some u) h =
        Returns (Some (errors_New "pbts already enabled")))) /\
  (PBTSParams.PBTSEnableHeight (ConsensusParams.PBTS params) = 0 ->
     (ValidateUpdate params (Some u) h = Returns None <->
      h < cmtproto.PBTSParams.PbtsEnableHeight pbts /\ abci_guard_passes params u h) /\
     (ValidateUpdate params (Some u) h <> Returns None ->
      exists e, ValidateUpdate params (Some u) h = Returns (Some e)) /\
     (abci_guard_passes params u h ->
      cmtproto.PBTSParams.PbtsEnableHeight pbts <= h ->
      ValidateUpdate params (Some u) h =
      Returns (Some (fmt_Errorf
        "PbtsEnableHeight cannot be updated to a past height, pbts enabled height: %d, current height %d"
        [ArgInt 0; ArgInt h])))).
Proof.
  intros Hh Hpbts.
  pose proof (validateUpdatePBTS_present params u pbts h Hpbts) as (Hon & _ & Hfut).
  assert (PBTSParams.PBTSEnableHeight (ConsensusParams.PBTS params) = 0 ->
          cmtproto.PBTSParams.PbtsEnableHeight pbts <= h ->
          validateUpdatePBTS params (Some u) h =
          Returns (Some (fmt_Errorf
            "PbtsEnableHeight cannot be updated to a past height, pbts enabled height: %d, current height %d"
            [ArgInt 0; ArgInt h]))) as Hpast.
  { intros Hcur Hle. unfold validateUpdatePBTS. rewrite Hcur. simpl.
    rewrite Hpbts. simpl. zcases. }
  rewrite ValidateUpdate_present, Hpbts. cbn [non_nil]. unfold abci_guard_passes.
  destruct (cmtproto.ConsensusParams.Abci u) as [abci |] eqn:Habci.
  - assert (validateUpdateABCI params (Some u) h = Returns None \/
            exists e, validateUpdateABCI params (Some u) h = Returns (Some e)) as [Hok | [e He]].
    { unfold validateUpdateABCI. simpl. rewrite Habci. simpl. zcases; eauto. }
    + rewrite Hok.
      split; [left; right; reflexivity |].
      split; [intros e _ He; discriminate He |].
      split; intros Hcur.
      * rewrite Hon by done. split; [eauto | done].
      * destruct (Z.le_gt_cases (cmtproto.PBTSParams.PbtsEnableHeight pbts) h) as [Hle | Hgt].
        -- rewrite (Hpast Hcur Hle). split; [| split; [eauto | done]].
           split; [done | lia].
        -- rewrite Hfut by (done || lia). split; [| split; [done | lia]].
           split; [| done]. intros _. split; [lia | by right].
    + rewrite He.
      split; [right; split; [done | eauto] |].
      split; [intros e' _ He'; exact He' |].
      split; intros Hcur.
      * split; [eauto |]. intros [? | ?]; congruence.
      * split; [| split; [eauto |]].
        -- split; [done |]. intros [_ [? | ?]]; congruence.
        -- intros [? | ?]; congruence.
  - split; [left; left; reflexivity |].
    split; [intros e Hne; done |].
    split; intros Hcur.
    + rewrite Hon by done. split; [eauto | done].
    + destruct (Z.le_gt_cases (cmtproto.PBTSParams.PbtsEnableHeight pbts) h) as [Hle | Hgt].
      * rewrite (Hpast Hcur Hle). split; [| split; [eauto | done]].
        split; [done | lia].
      * rewrite Hfut by (done || lia). split; [| split; [done | lia]].
        split; [| done]. intros _. split; [lia | by left].
Qed.

Lemma ValidateUpdate_pbts_witness :
  ValidateUpdate (Sample.with_pbts 100 Sample.defaults) (Some (Sample.pbts_delta 200)) 10 =
    Returns (Some (errors_New "pbts already enabled")) /\
  ValidateUpdate Sample.defaults (Some (Sample.pbts_delta 50)) 10 = Returns None /\
  ValidateUpdate (Sample.with_pbts 100 (Sample.with_vote_extensions 5 Sample.defaults))
    (Some (Sample.abci_pbts_delta 20 50)) 10 =
    Returns (Some (fmt_Errorf
      "VoteExtensionsEnableHeight cannot be modified oncethe initial height has occurred, initial height: %d, current height %d"
      [ArgInt 5; ArgInt 10])) /\
  ValidateUpdate Sample.defaults (Some (Sample.pbts_delta 10)) 10 =
    Returns (Some (fmt_Errorf
      "PbtsEnableHeight cannot be updated to a past height, pbts enabled height: %d, current height %d"
      [ArgInt 0; ArgInt 10])).
Proof.
  split; [| split; [| split]].
  - apply (ValidateUpdate_pbts (Sample.with_pbts 100 Sample.defaults)
             (Sample.pbts_delta 200) (cmtproto.PBTSParams.mk 200) 10);
      [lia | reflexivity | simpl; lia | left; reflexivity].
  - apply (ValidateUpdate_pbts Sample.defaults (Sample.pbts_delta 50)
             (cmtproto.PBTSParams.mk 50) 10);
      [lia | reflexivity | reflexivity |].
    split; [simpl; lia | left; reflexivity].
  - apply (ValidateUpdate_pbts
             (Sample.with_pbts 100 (Sample.with_vote_extensions 5 Sample.defaults))
             (Sample.abci_pbts_delta 20 50) (cmtproto.PBTSParams.mk 50) 10);
      [lia | reflexivity | discriminate | reflexivity].
  - apply (ValidateUpdate_pbts Sample.defaults (Sample.pbts_delta 10)
             (cmtproto.PBTSParams.mk 10) 10);
      [lia | reflexivity | reflexivity | left; reflexivity | simpl; lia].
Defined.

(** C10: a delta with neither the Abci nor the Pbts sub-message is accepted
    by [ValidateUpdate] for every current set and every height [h >= 1],
    whatever its other sub-messages carry; there are such deltas whose
    merge fails [ValidateBasic] (a Block sub-message with [MaxBytes = 0]). *)
Theorem ValidateUpdate_without_abci_pbts :
  (forall params u h,
     1 <= h ->
     cmtproto.ConsensusParams.Abci u = None ->
     cmtproto.ConsensusParams.Pbts u = None ->
     ValidateUpdate params (Some u) h = Returns None) /\
  (exists keys σ params u h,
     1 <= h /\
     cmtproto.ConsensusParams.Abci u = None /\
     cmtproto.ConsensusParams.Pbts u = None /\
     @ValidateBasic keys σ params = None /\
     ValidateUpdate params (Some u) h = Returns None /\
     @ValidateBasic keys (snd (Update σ params (Some u))) (fst (Update σ params (Some u)))
       <> None).
Proof.
  split.
  - intros params u h _ Habci Hpbts.
    rewrite ValidateUpdate_present, Habci, Hpbts. reflexivity.
  - exists Sample.key_types, Sample.defaults_heap, Sample.defaults.
    exists (cmtproto.ConsensusParams.mk
              (Some (cmtproto.BlockParams.mk 0 10000000)) None None None None None None).
    exists 10. vm_compute. repeat split; congruence.
Qed.

Lemma ValidateUpdate_without_abci_pbts_witness :
  ValidateUpdate Sample.defaults
    (Some (cmtproto.ConsensusParams.mk
             (Some (cmtproto.BlockParams.mk 0 (-7))) None None None None
             (Some (cmtproto.SynchronyParams.mk (Some (-1)) None)) None)) 3 = Returns None.
Proof.
  apply ValidateUpdate_without_abci_pbts; [lia | reflexivity | reflexivity].
Defined.

(** ** ValidateBasic *)

(** C9, as stated, fails: the default set with [Evidence.MaxBytes] lowered
    to 0, every other field valid, passes [ValidateBasic]. *)
Lemma ValidateBasic_evidence_max_bytes_zero_accepted :
  EvidenceParams.MaxBytes (ConsensusParams.Evidence Sample.evidence_max_bytes_zero) = 0 /\
  @ValidateBasic Sample.key_types Sample.defaults_heap Sample.evidence_max_bytes_zero = None.
Proof. vm_compute. split; reflexivity. Qed.

(** ** Hash *)

(** [Hash] is a function of the two Block fields. *)
Lemma Hash_of_block (M : HashedParamsMarshaler) (H : Hasher) :
  exists f : Z -> Z -> outcome (list byte),
    forall params,
      Hash params = f (BlockParams.MaxBytes (ConsensusParams.Block params))
                      (BlockParams.MaxGas (ConsensusParams.Block params)).
Proof.
  exists (fun maxBytes maxGas =>
            Hash (ConsensusParams.set_Block (BlockParams.mk maxBytes maxGas)
                    (ConsensusParams.mk (BlockParams.mk 0 0) (EvidenceParams.mk 0 0 0)
                       (ValidatorParams.mk nil_slice) (VersionParams.mk 0)
                       (ABCIParams.mk 0) (SynchronyParams.mk 0 0) (PBTSParams.mk 0)))).
  intros params. reflexivity.
Qed.

(** When the encoder and the hasher report no error, [Hash] returns the
    digest of the encoded pair. *)
Lemma Hash_returns (M : HashedParamsMarshaler) (H : Hasher) params bz st n :
  Marshal {| cmtproto.HashedParams.BlockMaxBytes :=
               BlockParams.MaxBytes (ConsensusParams.Block params);
             cmtproto.HashedParams.BlockMaxGas :=
               BlockParams.MaxGas (ConsensusParams.Block params) |} = (bz, None) ->
  hash_Write tmhash_New bz = (st, (n, None)) ->
  Hash params = Returns (hash_Sum st []).
Proof. intros Hm Hw. unfold Hash. rewrite Hm, Hw. reflexivity. Qed.

(** C6: two parameter sets that agree on [Block.MaxBytes] and
    [Block.MaxGas] have the same [Hash], however they differ elsewhere; in
    particular [Hash] of one set is always the same value. *)
Theorem Hash_block_only (M : HashedParamsMarshaler) (H : Hasher)
    (p q : ConsensusParams.t) :
  BlockParams.MaxBytes (ConsensusParams.Block p) =
  BlockParams.MaxBytes (ConsensusParams.Block q) ->
  BlockParams.MaxGas (ConsensusParams.Block p) =
  BlockParams.MaxGas (ConsensusParams.Block q) ->
  Hash p = Hash q.
Proof. intros Hbytes Hgas. unfold Hash. rewrite Hbytes, Hgas. reflexivity. Qed.

Lemma Hash_block_only_witness :
  @Hash Sample.marshaler Sample.hasher Sample.defaults =
  @Hash Sample.marshaler Sample.hasher Sample.one_hour_evidence.
Proof.
  apply (Hash_block_only Sample.marshaler Sample.hasher
           Sample.defaults Sample.one_hour_evidence); reflexivity.
Defined.

Example sample_hash_returns :
  exists digest, @Hash Sample.marshaler Sample.hasher Sample.defaults = Returns digest /\
                 length digest = 16%nat.
Proof. eexists. split; reflexivity. Qed.

Example sample_hash_differs :
  @Hash Sample.marshaler Sample.hasher Sample.defaults <>
  @Hash Sample.marshaler Sample.hasher
    (ConsensusParams.set_Block (BlockParams.mk 4194304 (-1)) Sample.defaults).
Proof. vm_compute. discriminate. Qed.

(** ** Codec *)

(** C5, as stated, fails in its second half: a wire message without the
    Abci, Synchrony and Pbts sub-messages that also lacks the Block
    sub-message yields no parameter set, the decoder panics on the nil
    pointer. *)
Lemma ConsensusParamsFromProto_all_absent_panics :
  cmtproto.ConsensusParams.Abci Sample.no_change = None /\
  cmtproto.ConsensusParams.Synchrony Sample.no_change = None /\
  cmtproto.ConsensusParams.Pbts Sample.no_change = None /\
  ConsensusParamsFromProto Sample.no_change = Panics PanicNilDereference.
Proof. repeat split; reflexivity. Qed.

(** C5, amended: decoding the encoding of any parameter set gives that set
    back; and a wire message whose Block, Evidence, Validator and Version
    sub-messages are present and whose Abci, Synchrony and Pbts
    sub-messages are absent decodes to a set whose
    [VoteExtensionsEnableHeight], [Synchrony.Precision],
    [Synchrony.MessageDelay] and [PBTSEnableHeight] are 0. *)
Theorem codec_round_trip :
  (forall params, ConsensusParamsFromProto (ToProto params) = Returns params) /\
  (forall pbParams,
     is_Some (cmtproto.ConsensusParams.Block pbParams) ->
     is_Some (cmtproto.ConsensusParams.Evidence pbParams) ->
     is_Some (cmtproto.ConsensusParams.Validator pbParams) ->
     is_Some (cmtproto.ConsensusParams.Version pbParams) ->
     cmtproto.ConsensusParams.Abci pbParams = None ->
     cmtproto.ConsensusParams.Synchrony pbParams = None ->
     cmtproto.ConsensusParams.Pbts pbParams = None ->
     exists c,
       ConsensusParamsFromProto pbParams = Returns c /\
       ABCIParams.VoteExtensionsEnableHeight (ConsensusParams.ABCI c) = 0 /\
       SynchronyParams.Precision (ConsensusParams.Synchrony c) = 0 /\
       SynchronyParams.MessageDelay (ConsensusParams.Synchrony c) = 0 /\
       PBTSParams.PBTSEnableHeight (ConsensusParams.PBTS c) = 0).
Proof.
  split.
  - intros [[bmax bgas] [eblocks eage ebytes] [keys] [app] [abci] [prec delay] [pbts]].
    reflexivity.
  - intros pbParams [block Hblock] [evidence Hevidence] [validator Hvalidator]
      [version Hversion] Habci Hsync Hpbts.
    unfold ConsensusParamsFromProto.
    rewrite Hblock, Hevidence, Hvalidator, Hversion, Habci, Hsync, Hpbts. simpl.
    eexists. split; [reflexivity |]. repeat split.
Qed.

Lemma codec_round_trip_witness :
  ConsensusParamsFromProto (ToProto Sample.defaults) = Returns Sample.defaults /\
  exists c,
    ConsensusParamsFromProto
      (cmtproto.ConsensusParams.mk
         (Some (cmtproto.BlockParams.mk 4194304 10000000))
         (Some (cmtproto.EvidenceParams.mk 100000 172800000000000 1048576))
         (Some (cmtproto.ValidatorParams.mk nil_slice))
         (Some (cmtproto.VersionParams.mk 0)) None None None) = Returns c /\
    ABCIParams.VoteExtensionsEnableHeight (ConsensusParams.ABCI c) = 0 /\
    SynchronyParams.Precision (ConsensusParams.Synchrony c) = 0 /\
    SynchronyParams.MessageDelay (ConsensusParams.Synchrony c) = 0 /\
    PBTSParams.PBTSEnableHeight (ConsensusParams.PBTS c) = 0.
Proof.
  split.
  - apply codec_round_trip.
  - apply codec_round_trip; simpl; (reflexivity || eexists; reflexivity).
Defined.

(** ** Update *)

Lemma alloc_fresh (σ : heap) (xs : list string) :
  σ !! fst (alloc σ xs) = None /\ fst (alloc σ xs) <> zerobase.
Proof.
  unfold alloc. simpl.
  pose proof (is_fresh ({[zerobase]} ∪ dom σ)) as Hfresh.
  split.
  - apply not_elem_of_dom. set_solver.
  - set_solver.
Qed.

Lemma alloc_subseteq (σ : heap) (xs : list string) : σ ⊆ snd (alloc σ xs).
Proof. apply insert_subseteq. exact (proj1 (alloc_fresh σ xs)). Qed.

(** The copy made by [append([]string{}, s...)] leaves the heap it found
    in place, holds the elements of [s], and lives in an array of its own. *)
Lemma append_to_empty_spec (σ : heap) (s : slice) :
  σ ⊆ snd (append_to_empty σ s) /\
  slice_len (fst (append_to_empty σ s)) = slice_len s /\
  slice_elems (snd (append_to_empty σ s)) (fst (append_to_empty σ s)) = slice_elems σ s /\
  (slice_len s <> 0%nat ->
   exists l, slice_ptr (fst (append_to_empty σ s)) = Some l /\ σ !! l = None).
Proof.
  unfold append_to_empty. destruct s as [ptr [| n]]; simpl.
  - repeat split; [done | | done].
    unfold slice_elems. simpl. destruct ptr; by rewrite ?take_0.
  - repeat split.
    + apply alloc_subseteq.
    + unfold slice_elems at 1. simpl. rewrite lookup_insert_eq. simpl.
      unfold slice_elems. simpl. destruct ptr; simpl; [| done].
      by rewrite take_take, Nat.min_id.
    + intros _. eexists. split; [reflexivity |].
      exact (proj1 (alloc_fresh σ [])).
Qed.

(** Growing the heap does not change what a backed slice reads. *)
Lemma slice_elems_weaken (σ σ' : heap) (s : slice) :
  σ ⊆ σ' -> slice_backed σ s -> slice_elems σ' s = slice_elems σ s.
Proof.
  intros Hsub [Hlen | (l & arr & Hptr & Harr & _)]; unfold slice_elems.
  - rewrite Hlen. destruct (slice_ptr s); by rewrite ?take_0.
  - rewrite Hptr, Harr, (lookup_weaken _ _ _ _ Harr Hsub). reflexivity.
Qed.

Lemma Update_heap_grows σ params params2 : σ ⊆ snd (Update σ params params2).
Proof.
  unfold Update. destruct params2 as [u |]; [| done].
  destruct (cmtproto.ConsensusParams.Validator u) as [v |]; [| done].
  pose proof (append_to_empty_spec σ (cmtproto.ValidatorParams.PubKeyTypes v)) as [Hsub _].
  destruct (append_to_empty σ (cmtproto.ValidatorParams.PubKeyTypes v)). exact Hsub.
Qed.

(** C7: [Update] leaves the heap it was given in place (every backing
    array of the original set, of the delta and of anything else keeps its
    contents, so the original set reads as before); every sub-group that is
    absent from the delta is the same in the result as in the original;
    and for a nil delta, or one with no sub-group present, the result is
    the original set and no memory is allocated. *)
Theorem Update_frame (σ : heap) (params : ConsensusParams.t)
    (params2 : option cmtproto.ConsensusParams.t) :
  (σ ⊆ snd (Update σ params params2) /\
   forall s, slice_backed σ s ->
             slice_elems (snd (Update σ params params2)) s = slice_elems σ s) /\
  (forall u, params2 = Some u ->
     (cmtproto.ConsensusParams.Block u = None ->
        ConsensusParams.Block (fst (Update σ params params2)) =
        ConsensusParams.Block params) /\
     (cmtproto.ConsensusParams.Evidence u = None ->
        ConsensusParams.Evidence (fst (Update σ params params2)) =
        ConsensusParams.Evidence params) /\
     (cmtproto.ConsensusParams.Validator u = None ->
        ConsensusParams.Validator (fst (Update σ params params2)) =
        ConsensusParams.Validator params) /\
     (cmtproto.ConsensusParams.Version u = None ->
        ConsensusParams.Version (fst (Update σ params params2)) =
        ConsensusParams.Version params) /\
     (cmtproto.ConsensusParams.Abci u = None ->
        ConsensusParams.ABCI (fst (Update σ params params2)) =
        ConsensusParams.ABCI params) /\
     (cmtproto.ConsensusParams.Synchrony u = None ->
        ConsensusParams.Synchrony (fst (Update σ params params2)) =
        ConsensusParams.Synchrony params) /\
     (cmtproto.ConsensusParams.Pbts u = None ->
        ConsensusParams.PBTS (fst (Update σ params params2)) =
        ConsensusParams.PBTS params)) /\
  (params2 = None \/
   params2 = Some (cmtproto.ConsensusParams.mk None None None None None None None) ->
   Update σ params params2 = (params, σ)).
Proof.
  split; [| split].
  - split; [apply Update_heap_grows |].
    intros s Hs. apply slice_elems_weaken; [apply Update_heap_grows | exact Hs].
  - intros u ->. unfold Update.
    destruct u as [block evidence validator version abci synchrony pbts]. simpl.
    destruct validator as [v |];
      [destruct (append_to_empty σ (cmtproto.ValidatorParams.PubKeyTypes v)) |];
      destruct block, evidence, version, abci, synchrony as [[[?|] [?|]] |], pbts; simpl;
      repeat split; intros Habsent; (discriminate Habsent || reflexivity).
  - intros [-> | ->]; [reflexivity |].
    destruct params. reflexivity.
Qed.

Lemma Update_frame_witness :
  ConsensusParams.Evidence
    (fst (Update Sample.defaults_heap Sample.defaults (Some (Sample.abci_delta 50)))) =
  ConsensusParams.Evidence Sample.defaults /\
  Update Sample.defaults_heap Sample.defaults (Some Sample.no_change) =
  (Sample.defaults, Sample.defaults_heap) /\
  Update Sample.defaults_heap Sample.defaults None =
  (Sample.defaults, Sample.defaults_heap).
Proof.
  split; [| split].
  - destruct (Update_frame Sample.defaults_heap Sample.defaults
                (Some (Sample.abci_delta 50))) as (_ & Habsent & _).
    destruct (Habsent (Sample.abci_delta 50) eq_refl) as (_ & Hevidence & _).
    apply Hevidence. reflexivity.
  - destruct (Update_frame Sample.defaults_heap Sample.defaults
                (Some Sample.no_change)) as (_ & _ & Hsame).
    apply Hsame. right. reflexivity.
  - destruct (Update_frame Sample.defaults_heap Sample.defaults None) as (_ & _ & Hsame).
    apply Hsame. left. reflexivity.
Defined.

(** When the delta carries a Validator sub-message, the result holds a
    copy of its key types: same length and elements, and, unless empty, in
    an array that was not allocated before. *)
Lemma Update_validator_copied σ params u v :
  cmtproto.ConsensusParams.Validator u = Some v ->
  let res := fst (Update σ params (Some u)) in
  let σ' := snd (Update σ params (Some u)) in
  let keys := ValidatorParams.PubKeyTypes (ConsensusParams.Validator res) in
  slice_len keys = slice_len (cmtproto.ValidatorParams.PubKeyTypes v) /\
  slice_elems σ' keys = slice_elems σ (cmtproto.ValidatorParams.PubKeyTypes v) /\
  (slice_len keys <> 0%nat -> exists l, slice_ptr keys = Some l /\ σ !! l = None).
Proof.
  intros Hv. unfold Update. rewrite Hv.
  pose proof (append_to_empty_spec σ (cmtproto.ValidatorParams.PubKeyTypes v))
    as (_ & Hlen & Helems & Hfresh).
  destruct (append_to_empty σ (cmtproto.ValidatorParams.PubKeyTypes v)) as [copy σ'].
  simpl in *.
  destruct u as [block evidence validator version abci synchrony pbts]. simpl.
  destruct block, evidence, version, abci, synchrony as [[[?|] [?|]] |], pbts; simpl;
    (split; [exact Hlen | split; [exact Helems |]]);
    intros Hne; apply Hfresh; congruence.
Qed.

Example sample_update_enable_height :
  ABCIParams.VoteExtensionsEnableHeight
    (ConsensusParams.ABCI
       (fst (Update Sample.defaults_heap Sample.defaults (Some (Sample.abci_delta 50))))) = 50.
Proof. reflexivity. Qed.

(** * Further properties of the module *)

(** ** The key-type registry and [ValidateBasic] *)

(** The registry holds the two key types of the map literal and nothing
    else. *)
Lemma registry_lookup (keys : KeyTypes) (keyType : string) :
  is_Some (ABCIPubKeyTypesToNames !! keyType) <->
  keyType = ABCIPubKeyTypeEd25519 \/ keyType = ABCIPubKeyTypeSecp256k1.
Proof.
  unfold ABCIPubKeyTypesToNames.
  destruct (decide (keyType = ABCIPubKeyTypeEd25519)) as [-> | Hed].
  { rewrite lookup_insert_eq. split; eauto. }
  rewrite lookup_insert_ne by done.
  destruct (decide (keyType = ABCIPubKeyTypeSecp256k1)) as [-> | Hsecp].
  { rewrite lookup_singleton_eq. split; eauto. }
  rewrite lookup_singleton_ne by done.
  split; [intros [? ?]; discriminate | intros [? | ?]; contradiction].
Qed.

(** The loop over the key types succeeds exactly on lists of registered
    key types. *)
Lemma check_pub_key_types_none (keys : KeyTypes) (i : nat) (keyTypes : list string) :
  check_pub_key_types i keyTypes = None <->
  Forall (fun k => k = ABCIPubKeyTypeEd25519 \/ k = ABCIPubKeyTypeSecp256k1) keyTypes.
Proof.
  revert i. induction keyTypes as [| k rest IH]; intros i; simpl.
  - split; [constructor | reflexivity].
  - destruct (ABCIPubKeyTypesToNames !! k) as [name |] eqn:Hk.
    + rewrite IH, Forall_cons. split; [| tauto].
      intros Hrest. split; [| exact Hrest]. apply registry_lookup. eauto.
    + split; [discriminate |]. rewrite Forall_cons. intros [Hknown _].
      apply registry_lookup in Hknown. rewrite Hk in Hknown.
      destruct Hknown; discriminate.
Qed.

(** When the loop fails, it fails at the first unregistered key type and
    reports its index and value. *)
Lemma check_pub_key_types_some (keys : KeyTypes) (i : nat) (keyTypes : list string) e :
  check_pub_key_types i keyTypes = Some e ->
  exists j k,
    keyTypes !! j = Some k /\
    ABCIPubKeyTypesToNames !! k = None /\
    Forall (fun k' => k' = ABCIPubKeyTypeEd25519 \/ k' = ABCIPubKeyTypeSecp256k1)
           (take j keyTypes) /\
    e = fmt_Errorf "params.Validator.PubKeyTypes[%d], %s, is an unknown pubkey type"
                   [ArgInt (Z.of_nat (i + j)); ArgString k].
Proof.
  revert i. induction keyTypes as [| k rest IH]; intros i; simpl; [discriminate |].
  destruct (ABCIPubKeyTypesToNames !! k) as [name |] eqn:Hk.
  - intros Hrest. destruct (IH (S i) Hrest) as (j & k' & Hj & Hk' & Hpre & ->).
    exists (S j), k'. simpl. repeat split; [exact Hj | exact Hk' | |].
    + constructor; [| exact Hpre]. apply registry_lookup. eauto.
    + repeat f_equal. lia.
  - intros [= <-]. exists 0%nat, k. simpl. repeat split; [exact Hk | constructor |].
    repeat f_equal. lia.
Qed.

(** The verdict of [ValidateBasic] against the bounds it tests, one by one. *)
Lemma ValidateBasic_none_iff (keys : KeyTypes) (σ : heap) (params : ConsensusParams.t) :
  ValidateBasic σ params = None <->
  (BlockParams.MaxBytes (ConsensusParams.Block params) = -1 \/
   0 < BlockParams.MaxBytes (ConsensusParams.Block params) <= MaxBlockSizeBytes) /\
  -1 <= BlockParams.MaxGas (ConsensusParams.Block params) /\
  0 < EvidenceParams.MaxAgeNumBlocks (ConsensusParams.Evidence params) /\
  0 < EvidenceParams.MaxAgeDuration (ConsensusParams.Evidence params) /\
  0 <= EvidenceParams.MaxBytes (ConsensusParams.Evidence params) <=
    (if BlockParams.MaxBytes (ConsensusParams.Block params) =? -1
     then MaxBlockSizeBytes
     else BlockParams.MaxBytes (ConsensusParams.Block params)) /\
  0 <= ABCIParams.VoteExtensionsEnableHeight (ConsensusParams.ABCI params) /\
  0 < SynchronyParams.MessageDelay (ConsensusParams.Synchrony params) /\
  0 < SynchronyParams.Precision (ConsensusParams.Synchrony params) /\
  0 <= PBTSParams.PBTSEnableHeight (ConsensusParams.PBTS params) /\
  slice_len (ValidatorParams.PubKeyTypes (ConsensusParams.Validator params)) <> 0%nat /\
  Forall (fun k => k = ABCIPubKeyTypeEd25519 \/ k = ABCIPubKeyTypeSecp256k1)
         (slice_elems σ (ValidatorParams.PubKeyTypes (ConsensusParams.Validator params))).
Proof.
  destruct params as [[bmax bgas] [eblocks eage ebytes] [pk] version
                      [abci] [prec delay] [pbts]].
  unfold ValidateBasic, MaxBlockSizeBytes. cbn -[Z.mul Z.eqb Z.ltb Z.leb Nat.eqb].
  destruct (Z.eqb_spec bmax 0); [split; [discriminate | lia] |].
  destruct (Z.ltb_spec bmax (-1)); [split; [discriminate | lia] |].
  destruct (Z.ltb_spec (100 * 1024 * 1024) bmax); [split; [discriminate | lia] |].
  destruct (Z.ltb_spec bgas (-1)); [split; [discriminate | lia] |].
  destruct (Z.leb_spec eblocks 0); [split; [discriminate | lia] |].
  destruct (Z.leb_spec eage 0); [split; [discriminate | lia] |].
  destruct (Z.ltb_spec (if bmax =? -1 then 100 * 1024 * 1024 else bmax) ebytes);
    [split; [discriminate | lia] |].
  destruct (Z.ltb_spec ebytes 0); [split; [discriminate | lia] |].
  destruct (Z.ltb_spec abci 0); [split; [discriminate | lia] |].
  destruct (Z.leb_spec delay 0); [split; [discriminate | lia] |].
  destruct (Z.leb_spec prec 0); [split; [discriminate | lia] |].
  destruct (Z.ltb_spec pbts 0); [split; [discriminate | lia] |].
  destruct (Nat.eqb_spec (slice_len pk) 0); [split; [discriminate | tauto] |].
  rewrite check_pub_key_types_none.
  split; [| tauto]. intros Hkeys.
  repeat (split; [lia || done |]). exact Hkeys.
Qed.

(** C9, amended: [ValidateBasic] enforces that [Evidence.MaxAgeNumBlocks]
    and [Evidence.MaxAgeDuration] are strictly positive and that
    [Evidence.MaxBytes] is non-negative and at most the effective block
    size: every set that passes has these bounds, and a set whose other
    fields are valid passes exactly when its Evidence fields have them.
    In particular a set with [Evidence.MaxBytes = 0] and all other fields
    valid is accepted. *)
Theorem ValidateBasic_evidence (keys : KeyTypes) (σ : heap) (params : ConsensusParams.t) :
  (ValidateBasic σ params = None ->
     0 < EvidenceParams.MaxAgeNumBlocks (ConsensusParams.Evidence params) /\
     0 < EvidenceParams.MaxAgeDuration (ConsensusParams.Evidence params) /\
     0 <= EvidenceParams.MaxBytes (ConsensusParams.Evidence params) <=
       (if BlockParams.MaxBytes (ConsensusParams.Block params) =? -1
        then MaxBlockSizeBytes
        else BlockParams.MaxBytes (ConsensusParams.Block params))) /\
  ((BlockParams.MaxBytes (ConsensusParams.Block params) = -1 \/
    0 < BlockParams.MaxBytes (ConsensusParams.Block params) <= MaxBlockSizeBytes) /\
   -1 <= BlockParams.MaxGas (ConsensusParams.Block params) /\
   0 <= ABCIParams.VoteExtensionsEnableHeight (ConsensusParams.ABCI params) /\
   0 < SynchronyParams.MessageDelay (ConsensusParams.Synchrony params) /\
   0 < SynchronyParams.Precision (ConsensusParams.Synchrony params) /\
   0 <= PBTSParams.PBTSEnableHeight (ConsensusParams.PBTS params) /\
   slice_len (ValidatorParams.PubKeyTypes (ConsensusParams.Validator params)) <> 0%nat /\
   Forall (fun k => k = ABCIPubKeyTypeEd25519 \/ k = ABCIPubKeyTypeSecp256k1)
          (slice_elems σ (ValidatorParams.PubKeyTypes (ConsensusParams.Validator params))) ->
   (ValidateBasic σ params = None <->
      0 < EvidenceParams.MaxAgeNumBlocks (ConsensusParams.Evidence params) /\
      0 < EvidenceParams.MaxAgeDuration (ConsensusParams.Evidence params) /\
      0 <= EvidenceParams.MaxBytes (ConsensusParams.Evidence params) <=
        (if BlockParams.MaxBytes (ConsensusParams.Block params) =? -1
         then MaxBlockSizeBytes
         else BlockParams.MaxBytes (ConsensusParams.Block params))) /\
   (0 < EvidenceParams.MaxAgeNumBlocks (ConsensusParams.Evidence params) ->
    0 < EvidenceParams.MaxAgeDuration (ConsensusParams.Evidence params) ->
    EvidenceParams.MaxBytes (ConsensusParams.Evidence params) = 0 ->
    ValidateBasic σ params = None)).
Proof.
  rewrite ValidateBasic_none_iff. split.
  - intros (_ & _ & Hblocks & Hage & Hbytes & _). auto.
  - intros (Hblock & Hgas & Hve & Hdelay & Hprec & Hpbts & Hlen & Hkeys).
    split; [split |].
    + intros (_ & _ & Hblocks & Hage & Hbytes & _). auto.
    + intros (Hblocks & Hage & Hbytes). repeat (split; [assumption |]). assumption.
    + intros Hblocks Hage Hzero.
      repeat (split; [assumption |]).
      split; [| repeat (split; [assumption |]); assumption].
      rewrite Hzero. unfold MaxBlockSizeBytes in *.
      destruct (Z.eqb_spec (BlockParams.MaxBytes (ConsensusParams.Block params)) (-1)); lia.
Qed.

Lemma ValidateBasic_evidence_witness :
  @ValidateBasic Sample.key_types Sample.defaults_heap Sample.evidence_max_bytes_zero = None.
Proof.
  apply (ValidateBasic_evidence Sample.key_types Sample.defaults_heap
           Sample.evidence_max_bytes_zero).
  - unfold MaxBlockSizeBytes. simpl. unfold Second, Millisecond.
    repeat (split; [lia || (right; lia) |]).
    vm_compute. repeat constructor.
  - simpl. lia.
  - simpl. lia.
  - reflexivity.
Defined.

(** X1: [ValidateBasic] accepts a set exactly when every documented bound
    holds: the block size is -1 or within (0, MaxBlockSizeBytes], the gas
    limit is at least -1, the evidence age limits and both synchrony
    durations are positive, the evidence size is between 0 and the
    effective block size, both enable heights are non-negative, and the
    list of key types is non-empty and holds registered key types only. *)
Theorem ValidateBasic_accepts_iff (keys : KeyTypes) (σ : heap) (params : ConsensusParams.t) :
  ValidateBasic σ params = None <->
  (BlockParams.MaxBytes (ConsensusParams.Block params) = -1 \/
   0 < BlockParams.MaxBytes (ConsensusParams.Block params) <= MaxBlockSizeBytes) /\
  -1 <= BlockParams.MaxGas (ConsensusParams.Block params) /\
  0 < EvidenceParams.MaxAgeNumBlocks (ConsensusParams.Evidence params) /\
  0 < EvidenceParams.MaxAgeDuration (ConsensusParams.Evidence params) /\
  0 <= EvidenceParams.MaxBytes (ConsensusParams.Evidence params) <=
    (if BlockParams.MaxBytes (ConsensusParams.Block params) =? -1
     then MaxBlockSizeBytes
     else BlockParams.MaxBytes (ConsensusParams.Block params)) /\
  0 <= ABCIParams.VoteExtensionsEnableHeight (ConsensusParams.ABCI params) /\
  0 < SynchronyParams.MessageDelay (ConsensusParams.Synchrony params) /\
  0 < SynchronyParams.Precision (ConsensusParams.Synchrony params) /\
  0 <= PBTSParams.PBTSEnableHeight (ConsensusParams.PBTS params) /\
  slice_len (ValidatorParams.PubKeyTypes (ConsensusParams.Validator params)) <> 0%nat /\
  Forall (fun k => k = ABCIPubKeyTypeEd25519 \/ k = ABCIPubKeyTypeSecp256k1)
         (slice_elems σ (ValidatorParams.PubKeyTypes (ConsensusParams.Validator params))).
Proof. exact (ValidateBasic_none_iff keys σ params). Qed.

(** The key types are looked at last: when the other fields are such that
    the set would pass with some list of key types, the verdict is that of
    the emptiness test and of the loop. *)
Lemma ValidateBasic_keys_stage (keys : KeyTypes) (σ σ0 : heap)
    (params : ConsensusParams.t) (v0 : ValidatorParams.t) :
  ValidateBasic σ0 (ConsensusParams.set_Validator v0 params) = None ->
  ValidateBasic σ params =
  if Nat.eqb (slice_len (ValidatorParams.PubKeyTypes (ConsensusParams.Validator params))) 0
  then Some (errors_New "len(Validator.PubKeyTypes) must be greater than 0")
  else check_pub_key_types 0
         (slice_elems σ (ValidatorParams.PubKeyTypes (ConsensusParams.Validator params))).
Proof.
  destruct params as [[bmax bgas] [eblocks eage ebytes] [pk] version
                      [abci] [prec delay] [pbts]].
  unfold ValidateBasic, ConsensusParams.set_Validator.
  cbn -[Z.mul Z.eqb Z.ltb Z.leb Nat.eqb].
  destruct (bmax =? 0); [discriminate |].
  destruct (bmax <? -1); [discriminate |].
  destruct (MaxBlockSizeBytes <? bmax); [discriminate |].
  destruct (bgas <? -1); [discriminate |].
  destruct (eblocks <=? 0); [discriminate |].
  destruct (eage <=? 0); [discriminate |].
  destruct ((if bmax =? -1 then MaxBlockSizeBytes else bmax) <? ebytes); [discriminate |].
  destruct (ebytes <? 0); [discriminate |].
  destruct (abci <? 0); [discriminate |].
  destruct (delay <=? 0); [discriminate |].
  destruct (prec <=? 0); [discriminate |].
  destruct (pbts <? 0); [discriminate |].
  reflexivity.
Qed.

(** X2: when every other field is in order, a list of key types whose
    first unregistered entry is [k], at index [length pre], makes
    [ValidateBasic] fail with the "unknown pubkey type" error carrying that
    index and that entry. *)
Theorem ValidateBasic_first_unknown_key (keys : KeyTypes) (σ σ0 : heap)
    (params : ConsensusParams.t) (v0 : ValidatorParams.t)
    (pre post : list string) (k : string) :
  ValidateBasic σ0 (ConsensusParams.set_Validator v0 params) = None ->
  slice_elems σ (ValidatorParams.PubKeyTypes (ConsensusParams.Validator params)) =
    (pre ++ k :: post)%list ->
  Forall (fun k' => k' = ABCIPubKeyTypeEd25519 \/ k' = ABCIPubKeyTypeSecp256k1) pre ->
  k <> ABCIPubKeyTypeEd25519 ->
  k <> ABCIPubKeyTypeSecp256k1 ->
  ValidateBasic σ params =
  Some (fmt_Errorf "params.Validator.PubKeyTypes[%d], %s, is an unknown pubkey type"
                   [ArgInt (Z.of_nat (length pre)); ArgString k]).
Proof.
  intros Hother Helems Hpre Hed Hsecp.
  rewrite (ValidateBasic_keys_stage keys σ σ0 params v0 Hother).
  destruct (Nat.eqb_spec
              (slice_len (ValidatorParams.PubKeyTypes (ConsensusParams.Validator params))) 0)
    as [Hlen | _].
  { unfold slice_elems in Helems. rewrite Hlen in Helems.
    destruct (slice_ptr _); [rewrite take_0 in Helems |]; by destruct pre. }
  rewrite Helems.
  destruct (check_pub_key_types 0 (pre ++ k :: post)) as [e |] eqn:Hloop.
  - apply check_pub_key_types_some in Hloop as (j & k' & Hj & Hk' & Hbefore & ->).
    assert (j = length pre) as ->.
    { destruct (Nat.lt_trichotomy j (length pre)) as [Hlt | [-> | Hgt]]; [| done |].
      - rewrite lookup_app_l in Hj by done.
        rewrite Forall_forall in Hpre.
        assert (is_Some (ABCIPubKeyTypesToNames !! k')) as [? Hsome].
        { apply registry_lookup, Hpre, list_elem_of_lookup. eauto. }
        congruence.
      - rewrite Forall_forall in Hbefore.
        destruct (Hbefore k); [| done | done].
        apply list_elem_of_lookup. exists (length pre).
        rewrite lookup_take_lt by done.
        by rewrite lookup_app_r, Nat.sub_diag. }
    rewrite lookup_app_r, Nat.sub_diag in Hj by done. simpl in Hj.
    by injection Hj as ->.
  - apply check_pub_key_types_none in Hloop.
    rewrite Forall_app, Forall_cons in Hloop. destruct Hloop as (_ & [? | ?] & _); done.
Qed.

Lemma ValidateBasic_first_unknown_key_witness :
  @ValidateBasic Sample.key_types ({[ 5%positive := ["ed25519"; "sr25519"; "bls"] ]})
    (ConsensusParams.set_Validator
       (ValidatorParams.mk (Slice (Some 5%positive) 3)) Sample.defaults) =
  Some (fmt_Errorf "params.Validator.PubKeyTypes[%d], %s, is an unknown pubkey type"
                   [ArgInt 1; ArgString "sr25519"]).
Proof.
  apply (ValidateBasic_first_unknown_key Sample.key_types _ Sample.defaults_heap _
           (ConsensusParams.Validator Sample.defaults) ["ed25519"] ["bls"] "sr25519").
  - vm_compute. reflexivity.
  - vm_compute. reflexivity.
  - repeat constructor.
  - discriminate.
  - discriminate.
Defined.

(** X3: the default set passes [ValidateBasic], whatever the registered
    key-type names are and whatever heap it is allocated in. *)
Theorem DefaultConsensusParams_valid (keys : KeyTypes) (σ : heap) :
  ValidateBasic (snd (DefaultConsensusParams σ)) (fst (DefaultConsensusParams σ)) = None.
Proof.
  apply ValidateBasic_none_iff.
  unfold DefaultConsensusParams, DefaultValidatorParams, slice_lit, alloc, slice_elems,
    MaxBlockSizeBytes.
  cbn -[Z.mul Z.eqb].
  rewrite lookup_insert_eq. cbn -[Z.mul Z.eqb].
  repeat (split; [first [lia | done | right; lia] |]).
  repeat constructor.
Qed.

(** ** [IsValidPubkeyType] and the block-part bound *)

Lemma pubkey_type_listed_elem_of (pubkeyType : string) (keyTypes : list string) :
  pubkey_type_listed pubkeyType keyTypes = true <-> pubkeyType ∈ keyTypes.
Proof.
  induction keyTypes as [| k rest IH]; simpl.
  - split; [discriminate | by intros ?%elem_of_nil].
  - rewrite elem_of_cons. destruct (String.eqb_spec k pubkeyType) as [-> | Hne].
    + split; eauto.
    + rewrite IH. split; [eauto | intros [-> | ?]; done].
Qed.

(** X4: in a set that passes [ValidateBasic], every key type that
    [IsValidPubkeyType] accepts is one of the two registered key types. *)
Theorem IsValidPubkeyType_registered (keys : KeyTypes) (σ : heap)
    (params : ConsensusParams.t) (pubkeyType : string) :
  ValidateBasic σ params = None ->
  IsValidPubkeyType σ (ConsensusParams.Validator params) pubkeyType = true ->
  pubkeyType = ABCIPubKeyTypeEd25519 \/ pubkeyType = ABCIPubKeyTypeSecp256k1.
Proof.
  intros Hvalid Hlisted.
  apply ValidateBasic_none_iff in Hvalid.
  destruct Hvalid as (_ & _ & _ & _ & _ & _ & _ & _ & _ & _ & Hkeys).
  rewrite Forall_forall in Hkeys. apply Hkeys.
  by apply pubkey_type_listed_elem_of.
Qed.

Lemma IsValidPubkeyType_registered_witness :
  "ed25519" = @ABCIPubKeyTypeEd25519 Sample.key_types \/
  "ed25519" = @ABCIPubKeyTypeSecp256k1 Sample.key_types.
Proof.
  apply (IsValidPubkeyType_registered Sample.key_types Sample.defaults_heap
           Sample.defaults "ed25519"); vm_compute; reflexivity.
Defined.

(** X5: the default validator parameters allow the ed25519 key type and no
    other. *)
Theorem DefaultValidatorParams_only_ed25519 (keys : KeyTypes) (σ : heap)
    (pubkeyType : string) :
  IsValidPubkeyType (snd (DefaultValidatorParams σ)) (fst (DefaultValidatorParams σ))
    pubkeyType = true <->
  pubkeyType = ABCIPubKeyTypeEd25519.
Proof.
  unfold IsValidPubkeyType. rewrite pubkey_type_listed_elem_of.
  unfold DefaultValidatorParams, slice_lit, alloc, slice_elems. simpl.
  rewrite lookup_insert_eq. simpl.
  rewrite elem_of_cons. split; [intros [? | ?%elem_of_nil]; done | eauto].
Qed.

(** X6: a block within the size limit of a set that passes [ValidateBasic]
    (with -1 standing for [MaxBlockSizeBytes]) splits into fewer than
    [MaxBlockPartsCount] parts of [BlockPartSizeBytes] bytes. *)
Theorem valid_block_parts_bound (keys : KeyTypes) (σ : heap)
    (params : ConsensusParams.t) (size : Z) :
  ValidateBasic σ params = None ->
  0 <= size ->
  size <= (if BlockParams.MaxBytes (ConsensusParams.Block params) =? -1
           then MaxBlockSizeBytes
           else BlockParams.MaxBytes (ConsensusParams.Block params)) ->
  (size + BlockPartSizeBytes - 1) / BlockPartSizeBytes < MaxBlockPartsCount.
Proof.
  intros Hvalid Hsize Hmax.
  apply ValidateBasic_none_iff in Hvalid. destruct Hvalid as (Hblock & _).
  assert (size <= MaxBlockSizeBytes) as Hle.
  { destruct (Z.eqb_spec (BlockParams.MaxBytes (ConsensusParams.Block params)) (-1)); lia. }
  unfold MaxBlockPartsCount, MaxBlockSizeBytes, BlockPartSizeBytes in *.
  change (100 * 1024 * 1024 / 65536) with 1600.
  apply Z.div_lt_upper_bound; lia.
Qed.

Lemma valid_block_parts_bound_witness :
  (4194304 + BlockPartSizeBytes - 1) / BlockPartSizeBytes < MaxBlockPartsCount.
Proof.
  apply (valid_block_parts_bound Sample.key_types Sample.defaults_heap Sample.defaults);
    [vm_compute; reflexivity | lia | simpl; lia].
Defined.

(** ** [ValidateUpdate], further *)

(** X7: [ValidateUpdate] panics on a nil delta and on nothing else: for
    every non-nil delta it returns, with an error or without. *)
Theorem ValidateUpdate_panics_iff_nil (params : ConsensusParams.t)
    (updated : option cmtproto.ConsensusParams.t) (h : Z) :
  (updated = None -> ValidateUpdate params updated h = Panics PanicNilDereference) /\
  (updated <> None -> exists err, ValidateUpdate params updated h = Returns err).
Proof.
  split.
  - intros ->. reflexivity.
  - destruct updated as [u |]; [intros _ | done].
    rewrite ValidateUpdate_present.
    unfold validateUpdateABCI, validateUpdatePBTS. simpl.
    destruct (cmtproto.ConsensusParams.Abci u) as [abci |],
             (cmtproto.ConsensusParams.Pbts u) as [pbts |]; simpl; zcases; eauto.
Qed.

Lemma ValidateUpdate_panics_iff_nil_witness :
  ValidateUpdate Sample.defaults None 10 = Panics PanicNilDereference /\
  exists err, ValidateUpdate Sample.defaults (Some (Sample.abci_pbts_delta 7 8)) 10 =
              Returns err.
Proof.
  split.
  - apply (ValidateUpdate_panics_iff_nil Sample.defaults None 10). reflexivity.
  - apply (ValidateUpdate_panics_iff_nil Sample.defaults
             (Some (Sample.abci_pbts_delta 7 8)) 10). discriminate.
Defined.

(** The verdict of [ValidateUpdate] at a height [h >= 1] against the
    conditions the two guards test. *)
Lemma ValidateUpdate_none_iff (params : ConsensusParams.t)
    (u : cmtproto.ConsensusParams.t) (h : Z) :
  1 <= h ->
  (ValidateUpdate params (Some u) h = Returns None <->
   (forall abci, cmtproto.ConsensusParams.Abci u = Some abci ->
      cmtproto.ABCIParams.VoteExtensionsEnableHeight abci =
        ABCIParams.VoteExtensionsEnableHeight (ConsensusParams.ABCI params) \/
      (h < cmtproto.ABCIParams.VoteExtensionsEnableHeight abci /\
       h < ABCIParams.VoteExtensionsEnableHeight (ConsensusParams.ABCI params))) /\
   (forall pbts, cmtproto.ConsensusParams.Pbts u = Some pbts ->
      PBTSParams.PBTSEnableHeight (ConsensusParams.PBTS params) = 0 /\
      h < cmtproto.PBTSParams.PbtsEnableHeight pbts)).
Proof.
  intros Hh. rewrite ValidateUpdate_present.
  unfold validateUpdateABCI, validateUpdatePBTS. simpl.
  destruct (cmtproto.ConsensusParams.Abci u) as [[next] |],
           (cmtproto.ConsensusParams.Pbts u) as [[nextp] |]; simpl.
  all: split.
  all: try (intros Hacc; split; [intros abci [= <-] | intros pbts [= <-]]; simpl;
            revert Hacc; zcases; intros; (discriminate || lia)).
  all: try (intros Hacc; split; intros ? ?; discriminate).
  all: intros [Habci Hpbts];
    try (specialize (Habci _ eq_refl); simpl in Habci);
    try (specialize (Hpbts _ eq_refl); simpl in Hpbts);
    zcases.
Qed.

(** X8: at a height [h >= 1], [ValidateUpdate] accepts a delta exactly
    when its Abci sub-message, if present, proposes the current enable
    height or a height above [h] while the current one is above [h] too,
    and its Pbts sub-message, if present, proposes a height above [h] while
    the current PBTS enable height is 0. *)
Theorem ValidateUpdate_accepts_iff (params : ConsensusParams.t)
    (u : cmtproto.ConsensusParams.t) (h : Z) :
  1 <= h ->
  (ValidateUpdate params (Some u) h = Returns None <->
   (forall abci, cmtproto.ConsensusParams.Abci u = Some abci ->
      cmtproto.ABCIParams.VoteExtensionsEnableHeight abci =
        ABCIParams.VoteExtensionsEnableHeight (ConsensusParams.ABCI params) \/
      (h < cmtproto.ABCIParams.VoteExtensionsEnableHeight abci /\
       h < ABCIParams.VoteExtensionsEnableHeight (ConsensusParams.ABCI params))) /\
   (forall pbts, cmtproto.ConsensusParams.Pbts u = Some pbts ->
      PBTSParams.PBTSEnableHeight (ConsensusParams.PBTS params) = 0 /\
      h < cmtproto.PBTSParams.PbtsEnableHeight pbts)).
Proof. exact (ValidateUpdate_none_iff params u h). Qed.

Lemma ValidateUpdate_accepts_iff_witness :
  ValidateUpdate (Sample.with_vote_extensions 300 Sample.defaults)
    (Some (Sample.abci_pbts_delta 99 50)) 11 = Returns None.
Proof.
  apply (ValidateUpdate_accepts_iff (Sample.with_vote_extensions 300 Sample.defaults)
           (Sample.abci_pbts_delta 99 50) 11); [lia |].
  split.
  - intros abci [= <-]. simpl. lia.
  - intros pbts [= <-]. simpl. lia.
Defined.

(** ** [Update], further *)

(** On a non-nil delta, [Update] gives each sub-group the values of
    the delta's sub-message when it is present and those of the original
    otherwise; of a present Synchrony sub-message only the durations that
    are themselves present are taken; the key types of a present Validator
    sub-message are taken as a copy, and nothing is allocated otherwise. *)
Lemma Update_present (σ : heap) (params : ConsensusParams.t)
    (u : cmtproto.ConsensusParams.t) :
  Update σ params (Some u) =
  ({| ConsensusParams.Block :=
        match cmtproto.ConsensusParams.Block u with
        | Some b => {| BlockParams.MaxBytes := cmtproto.BlockParams.MaxBytes b;
                       BlockParams.MaxGas := cmtproto.BlockParams.MaxGas b |}
        | None => ConsensusParams.Block params
        end;
      ConsensusParams.Evidence :=
        match cmtproto.ConsensusParams.Evidence u with
        | Some e =>
            {| EvidenceParams.MaxAgeNumBlocks := cmtproto.EvidenceParams.MaxAgeNumBlocks e;
               EvidenceParams.MaxAgeDuration := cmtproto.EvidenceParams.MaxAgeDuration e;
               EvidenceParams.MaxBytes := cmtproto.EvidenceParams.MaxBytes e |}
        | None => ConsensusParams.Evidence params
        end;
      ConsensusParams.Validator :=
        match cmtproto.ConsensusParams.Validator u with
        | Some v =>
            {| ValidatorParams.PubKeyTypes :=
                 fst (append_to_empty σ (cmtproto.ValidatorParams.PubKeyTypes v)) |}
        | None => ConsensusParams.Validator params
        end;
      ConsensusParams.Version :=
        match cmtproto.ConsensusParams.Version u with
        | Some v => {| VersionParams.App := cmtproto.VersionParams.App v |}
        | None => ConsensusParams.Version params
        end;
      ConsensusParams.ABCI :=
        match cmtproto.ConsensusParams.Abci u with
        | Some a =>
            {| ABCIParams.VoteExtensionsEnableHeight :=
                 cmtproto.ABCIParams.VoteExtensionsEnableHeight a |}
        | None => ConsensusParams.ABCI params
        end;
      ConsensusParams.Synchrony :=
        match cmtproto.ConsensusParams.Synchrony u with
        | Some s =>
            {| SynchronyParams.Precision :=
                 default (SynchronyParams.Precision (ConsensusParams.Synchrony params))
                         (cmtproto.SynchronyParams.Precision s);
               SynchronyParams.MessageDelay :=
                 default (SynchronyParams.MessageDelay (ConsensusParams.Synchrony params))
                         (cmtproto.SynchronyParams.MessageDelay s) |}
        | None => ConsensusParams.Synchrony params
        end;
      ConsensusParams.PBTS :=
        match cmtproto.ConsensusParams.Pbts u with
        | Some p =>
            {| PBTSParams.PBTSEnableHeight := cmtproto.PBTSParams.PbtsEnableHeight p |}
        | None => ConsensusParams.PBTS params
        end |},
   match cmtproto.ConsensusParams.Validator u with
   | Some v => snd (append_to_empty σ (cmtproto.ValidatorParams.PubKeyTypes v))
   | None => σ
   end).
Proof.
  unfold Update.
  destruct u as [block evidence validator version abci synchrony pbts]. simpl.
  destruct params as [pblock pevidence pvalidator pversion pabci [pprec pdelay] ppbts].
  destruct validator as [v |];
    [destruct (append_to_empty σ (cmtproto.ValidatorParams.PubKeyTypes v)) |];
    destruct block, evidence, version, abci, synchrony as [[[?|] [?|]] |], pbts;
    reflexivity.
Qed.

(** X10: an update that [ValidateUpdate] accepts at height [h >= 1] leaves
    both activation predicates as they were at every height from 1 to [h]:
    what was decided for the heights reached so far is not revised by the
    merge. *)
Theorem accepted_update_keeps_past_activation (σ : heap) (params : ConsensusParams.t)
    (u : cmtproto.ConsensusParams.t) (h h' : Z) :
  ValidateUpdate params (Some u) h = Returns None ->
  1 <= h' <= h ->
  VoteExtensionsEnabled (ConsensusParams.ABCI (fst (Update σ params (Some u)))) h' =
    VoteExtensionsEnabled (ConsensusParams.ABCI params) h' /\
  PBTSEnabled (ConsensusParams.PBTS (fst (Update σ params (Some u)))) h' =
    PBTSEnabled (ConsensusParams.PBTS params) h'.
Proof.
  intros Hacc Hh'.
  apply ValidateUpdate_none_iff in Hacc; [| lia]. destruct Hacc as [Habci Hpbts].
  rewrite Update_present. simpl.
  unfold VoteExtensionsEnabled, PBTSEnabled. split.
  - destruct (cmtproto.ConsensusParams.Abci u) as [[next] |]; [| reflexivity].
    specialize (Habci _ eq_refl). simpl in *.
    destruct Habci as [-> | [Hnext Hcur]]; [reflexivity |]. zcases.
  - destruct (cmtproto.ConsensusParams.Pbts u) as [[next] |]; [| reflexivity].
    specialize (Hpbts _ eq_refl). simpl in *.
    destruct Hpbts as [Hcur Hnext]. rewrite Hcur. zcases.
Qed.

Lemma accepted_update_keeps_past_activation_witness :
  VoteExtensionsEnabled
    (ConsensusParams.ABCI
       (fst (Update Sample.defaults_heap (Sample.with_vote_extensions 300 Sample.defaults)
               (Some (Sample.abci_pbts_delta 99 50))))) 7 =
    VoteExtensionsEnabled
      (ConsensusParams.ABCI (Sample.with_vote_extensions 300 Sample.defaults)) 7 /\
  PBTSEnabled
    (ConsensusParams.PBTS
       (fst (Update Sample.defaults_heap (Sample.with_vote_extensions 300 Sample.defaults)
               (Some (Sample.abci_pbts_delta 99 50))))) 7 =
    PBTSEnabled (ConsensusParams.PBTS (Sample.with_vote_extensions 300 Sample.defaults)) 7.
Proof.
  apply (accepted_update_keeps_past_activation Sample.defaults_heap
           (Sample.with_vote_extensions 300 Sample.defaults)
           (Sample.abci_pbts_delta 99 50) 11 7); [reflexivity | lia].
Defined.

(** X11: a delta that carries no sub-message other than Abci and Pbts and
    that [ValidateUpdate] accepts at a height [h >= 1] turns a set that
    passes [ValidateBasic] into one that passes it too. *)
Theorem accepted_heights_update_valid (keys : KeyTypes) (σ : heap)
    (params : ConsensusParams.t) (u : cmtproto.ConsensusParams.t) (h : Z) :
  1 <= h ->
  cmtproto.ConsensusParams.Block u = None ->
  cmtproto.ConsensusParams.Evidence u = None ->
  cmtproto.ConsensusParams.Validator u = None ->
  cmtproto.ConsensusParams.Version u = None ->
  cmtproto.ConsensusParams.Synchrony u = None ->
  ValidateBasic σ params = None ->
  ValidateUpdate params (Some u) h = Returns None ->
  ValidateBasic (snd (Update σ params (Some u))) (fst (Update σ params (Some u))) = None.
Proof.
  intros Hh Hblock Hevidence Hvalidator Hversion Hsync Hvalid Hacc.
  apply ValidateUpdate_none_iff in Hacc; [| lia]. destruct Hacc as [Habci Hpbts].
  apply ValidateBasic_none_iff in Hvalid.
  apply ValidateBasic_none_iff.
  rewrite Update_present, Hblock, Hevidence, Hvalidator, Hversion, Hsync.
  cbn [fst snd ConsensusParams.Block ConsensusParams.Evidence ConsensusParams.Validator
       ConsensusParams.ABCI ConsensusParams.Synchrony ConsensusParams.PBTS].
  destruct Hvalid as (? & ? & ? & ? & ? & Hve & ? & ? & Hpb & ? & ?).
  repeat (split; [assumption |]).
  split; [| split; [assumption | split; [assumption | split; [| split; assumption]]]].
  - destruct (cmtproto.ConsensusParams.Abci u) as [[next] |]; [| assumption].
    specialize (Habci _ eq_refl). simpl in *. lia.
  - destruct (cmtproto.ConsensusParams.Pbts u) as [[next] |]; [| assumption].
    specialize (Hpbts _ eq_refl). simpl in *. lia.
Qed.

Lemma accepted_heights_update_valid_witness :
  @ValidateBasic Sample.key_types
    (snd (Update Sample.defaults_heap (Sample.with_vote_extensions 300 Sample.defaults)
            (Some (Sample.abci_pbts_delta 99 50))))
    (fst (Update Sample.defaults_heap (Sample.with_vote_extensions 300 Sample.defaults)
            (Some (Sample.abci_pbts_delta 99 50)))) = None.
Proof.
  apply (accepted_heights_update_valid Sample.key_types Sample.defaults_heap
           (Sample.with_vote_extensions 300 Sample.defaults)
           (Sample.abci_pbts_delta 99 50) 11);
    first [lia | reflexivity | (vm_compute; reflexivity)].
Defined.

(** X12: PBTS is scheduled at most once: after an accepted update whose
    Pbts sub-message is present, every later delta with a Pbts sub-message
    is rejected, at every height. *)
Theorem pbts_scheduled_once (σ : heap) (params : ConsensusParams.t)
    (u u' : cmtproto.ConsensusParams.t) (h h' : Z) :
  1 <= h ->
  ValidateUpdate params (Some u) h = Returns None ->
  cmtproto.ConsensusParams.Pbts u <> None ->
  cmtproto.ConsensusParams.Pbts u' <> None ->
  exists e, ValidateUpdate (fst (Update σ params (Some u))) (Some u') h' = Returns (Some e).
Proof.
  intros Hh Hacc Hpbts Hpbts'.
  apply ValidateUpdate_none_iff in Hacc; [| lia]. destruct Hacc as [_ Hguard].
  destruct (cmtproto.ConsensusParams.Pbts u) as [[next] |] eqn:Hu; [| done].
  destruct (Hguard _ eq_refl) as [_ Hnext]. simpl in Hnext.
  destruct (cmtproto.ConsensusParams.Pbts u') as [pbts' |] eqn:Hu'; [| done].
  set (params' := fst (Update σ params (Some u))).
  assert (PBTSParams.PBTSEnableHeight (ConsensusParams.PBTS params') <> 0) as Hcur'.
  { subst params'. rewrite Update_present, Hu. simpl. lia. }
  clearbody params'.
  rewrite ValidateUpdate_present, Hu'. cbn [non_nil].
  rewrite (proj1 (validateUpdatePBTS_present params' u' pbts' h' Hu') Hcur').
  destruct (cmtproto.ConsensusParams.Abci u') as [abci' |] eqn:Habci'; [| eauto].
  destruct (validateUpdateABCI params' (Some u') h') as [[e |] | v] eqn:Hguard'; eauto.
  exfalso. revert Hguard'. unfold validateUpdateABCI. simpl. rewrite Habci'. simpl.
  zcases; discriminate.
Qed.

Lemma pbts_scheduled_once_witness :
  exists e,
    ValidateUpdate
      (fst (Update Sample.defaults_heap Sample.defaults (Some (Sample.pbts_delta 50))))
      (Some (Sample.pbts_delta 80)) 20 = Returns (Some e).
Proof.
  apply (pbts_scheduled_once Sample.defaults_heap Sample.defaults
           (Sample.pbts_delta 50) (Sample.pbts_delta 80) 10 20);
    [lia | reflexivity | discriminate | discriminate].
Defined.

(** The result of merging a full encoding, field by field. *)
Lemma Update_encoding_fields (σ : heap) (params q : ConsensusParams.t) :
  ConsensusParams.set_Validator (ConsensusParams.Validator q)
    (fst (Update σ params (Some (ToProto q)))) = q /\
  slice_len (ValidatorParams.PubKeyTypes
               (ConsensusParams.Validator (fst (Update σ params (Some (ToProto q)))))) =
    slice_len (ValidatorParams.PubKeyTypes (ConsensusParams.Validator q)) /\
  slice_elems (snd (Update σ params (Some (ToProto q))))
    (ValidatorParams.PubKeyTypes
       (ConsensusParams.Validator (fst (Update σ params (Some (ToProto q)))))) =
    slice_elems σ (ValidatorParams.PubKeyTypes (ConsensusParams.Validator q)).
Proof.
  rewrite Update_present.
  pose proof (append_to_empty_spec σ
                (ValidatorParams.PubKeyTypes (ConsensusParams.Validator q)))
    as (_ & Hlen & Helems & _).
  destruct q as [[bmax bgas] [eblocks eage ebytes] [pk] [app] [abci] [prec delay] [pbts]].
  simpl in *. repeat split; assumption.
Qed.

(** X13: merging the encoding of a set [q] into any set gives [q] back in
    every field, with the key types in a copy of the same length and
    elements: a fully populated delta leaves nothing of the original.  The
    copy is the empty literal when [q] has no key type, and otherwise
    lives in an array that was not allocated before the call, so it is
    not the array of [q]. *)
Theorem Update_with_encoding (σ : heap) (params q : ConsensusParams.t) :
  ConsensusParams.set_Validator (ConsensusParams.Validator q)
    (fst (Update σ params (Some (ToProto q)))) = q /\
  slice_len (ValidatorParams.PubKeyTypes
               (ConsensusParams.Validator (fst (Update σ params (Some (ToProto q)))))) =
    slice_len (ValidatorParams.PubKeyTypes (ConsensusParams.Validator q)) /\
  slice_elems (snd (Update σ params (Some (ToProto q))))
    (ValidatorParams.PubKeyTypes
       (ConsensusParams.Validator (fst (Update σ params (Some (ToProto q)))))) =
    slice_elems σ (ValidatorParams.PubKeyTypes (ConsensusParams.Validator q)) /\
  (slice_len (ValidatorParams.PubKeyTypes (ConsensusParams.Validator q)) = 0%nat ->
     ValidatorParams.PubKeyTypes
       (ConsensusParams.Validator (fst (Update σ params (Some (ToProto q))))) =
     empty_slice /\
     snd (Update σ params (Some (ToProto q))) = σ) /\
  (slice_len (ValidatorParams.PubKeyTypes (ConsensusParams.Validator q)) <> 0%nat ->
     exists l,
       slice_ptr (ValidatorParams.PubKeyTypes
                    (ConsensusParams.Validator (fst (Update σ params (Some (ToProto q)))))) =
       Some l /\
       σ !! l = None /\
       snd (Update σ params (Some (ToProto q))) =
       <[l := slice_elems σ (ValidatorParams.PubKeyTypes (ConsensusParams.Validator q))]> σ) /\
  (slice_len (ValidatorParams.PubKeyTypes (ConsensusParams.Validator q)) <> 0%nat ->
   slice_backed σ (ValidatorParams.PubKeyTypes (ConsensusParams.Validator q)) ->
   slice_ptr (ValidatorParams.PubKeyTypes
                (ConsensusParams.Validator (fst (Update σ params (Some (ToProto q)))))) <>
   slice_ptr (ValidatorParams.PubKeyTypes (ConsensusParams.Validator q))).
Proof.
  destruct (Update_encoding_fields σ params q) as (Hfields & Hlen & Helems).
  repeat (split; [assumption |]).
  assert (slice_len (ValidatorParams.PubKeyTypes (ConsensusParams.Validator q)) <> 0%nat ->
          exists l,
            slice_ptr (ValidatorParams.PubKeyTypes
                         (ConsensusParams.Validator
                            (fst (Update σ params (Some (ToProto q)))))) = Some l /\
            σ !! l = None /\
            snd (Update σ params (Some (ToProto q))) =
            <[l := slice_elems σ (ValidatorParams.PubKeyTypes (ConsensusParams.Validator q))]> σ)
    as Hfresh.
  { intros Hne. rewrite Update_present. simpl. unfold append_to_empty.
    destruct (slice_len (ValidatorParams.PubKeyTypes (ConsensusParams.Validator q)))
      as [| n] eqn:Hn; [done |].
    simpl. eexists. split; [reflexivity |]. split; [| reflexivity].
    exact (proj1 (alloc_fresh σ [])). }
  split; [| split; [exact Hfresh |]].
  - intros Hzero. rewrite Update_present. simpl. unfold append_to_empty.
    rewrite Hzero. split; reflexivity.
  - intros Hne [Hzero | (l' & arr & Hptr & Harr & _)]; [done |].
    destruct (Hfresh Hne) as (l & Hl & Hnone & _).
    rewrite Hl, Hptr. intros [= ->]. congruence.
Qed.

Lemma Update_with_encoding_witness :
  exists l,
    slice_ptr (ValidatorParams.PubKeyTypes
                 (ConsensusParams.Validator
                    (fst (Update Sample.defaults_heap Sample.one_hour_evidence
                            (Some (ToProto Sample.defaults)))))) = Some l /\
    Sample.defaults_heap !! l = None /\
    snd (Update Sample.defaults_heap Sample.one_hour_evidence
           (Some (ToProto Sample.defaults))) =
    <[l := slice_elems Sample.defaults_heap
             (ValidatorParams.PubKeyTypes (ConsensusParams.Validator Sample.defaults))]>
      Sample.defaults_heap.
Proof.
  apply (Update_with_encoding Sample.defaults_heap Sample.one_hour_evidence Sample.defaults).
  simpl. lia.
Defined.

Lemma slice_backed_weaken (σ σ' : heap) (s : slice) :
  σ ⊆ σ' -> slice_backed σ s -> slice_backed σ' s.
Proof.
  intros Hsub [Hlen | (l & arr & Hptr & Harr & Hle)]; [by left | right].
  exists l, arr. repeat split; [done | | done]. by eapply lookup_weaken.
Qed.

Lemma append_to_empty_backed (σ : heap) (s : slice) :
  slice_backed σ s ->
  slice_backed (snd (append_to_empty σ s)) (fst (append_to_empty σ s)).
Proof.
  intros Hs. unfold append_to_empty. destruct s as [ptr [| n]]; simpl; [by left |].
  right. destruct Hs as [Hlen | (l & arr & Hptr & Harr & Hle)]; [done |].
  simpl in *. subst ptr.
  eexists _, _. split; [reflexivity |]. rewrite lookup_insert_eq. split; [reflexivity |].
  unfold slice_elems. simpl. rewrite Harr. simpl. rewrite length_take. lia.
Qed.

(** X14: when the key types of the original set and of the delta are
    backed by allocated arrays, so are those of the result, in the heap
    that [Update] returns. *)
Theorem Update_keeps_backed (σ : heap) (params : ConsensusParams.t)
    (params2 : option cmtproto.ConsensusParams.t) :
  slice_backed σ (ValidatorParams.PubKeyTypes (ConsensusParams.Validator params)) ->
  (forall u v, params2 = Some u -> cmtproto.ConsensusParams.Validator u = Some v ->
               slice_backed σ (cmtproto.ValidatorParams.PubKeyTypes v)) ->
  slice_backed (snd (Update σ params params2))
    (ValidatorParams.PubKeyTypes (ConsensusParams.Validator (fst (Update σ params params2)))).
Proof.
  intros Hparams Hdelta. destruct params2 as [u |]; [| exact Hparams].
  rewrite Update_present. simpl.
  destruct (cmtproto.ConsensusParams.Validator u) as [v |] eqn:Hv; [| exact Hparams].
  simpl. apply append_to_empty_backed. by eapply Hdelta.
Qed.

Lemma Update_keeps_backed_witness :
  slice_backed
    (snd (Update Sample.defaults_heap Sample.defaults (Some (ToProto Sample.defaults))))
    (ValidatorParams.PubKeyTypes
       (ConsensusParams.Validator
          (fst (Update Sample.defaults_heap Sample.defaults
                  (Some (ToProto Sample.defaults)))))).
Proof.
  assert (slice_backed Sample.defaults_heap
            (ValidatorParams.PubKeyTypes (ConsensusParams.Validator Sample.defaults)))
    as Hbacked.
  { right. eexists _, _. split; [reflexivity |]. split; [vm_compute; reflexivity |].
    simpl. lia. }
  apply (Update_keeps_backed Sample.defaults_heap Sample.defaults
           (Some (ToProto Sample.defaults)) Hbacked).
  intros u v [= <-] [= <-]. exact Hbacked.
Defined.

(** X15: applying a delta a second time changes nothing by value: every
    sub-group other than Validator is the same after the second merge as
    after the first, and the key types have the same length and elements
    (in an array of their own).  The key types of the delta have to be
    backed by an allocated array. *)
Theorem Update_twice (σ : heap) (params : ConsensusParams.t)
    (params2 : option cmtproto.ConsensusParams.t) :
  (forall u v, params2 = Some u -> cmtproto.ConsensusParams.Validator u = Some v ->
               slice_backed σ (cmtproto.ValidatorParams.PubKeyTypes v)) ->
  ConsensusParams.set_Validator
    (ConsensusParams.Validator (fst (Update σ params params2)))
    (fst (Update (snd (Update σ params params2)) (fst (Update σ params params2)) params2)) =
    fst (Update σ params params2) /\
  slice_len
    (ValidatorParams.PubKeyTypes
       (ConsensusParams.Validator
          (fst (Update (snd (Update σ params params2))
                  (fst (Update σ params params2)) params2)))) =
    slice_len
      (ValidatorParams.PubKeyTypes
         (ConsensusParams.Validator (fst (Update σ params params2)))) /\
  slice_elems
    (snd (Update (snd (Update σ params params2)) (fst (Update σ params params2)) params2))
    (ValidatorParams.PubKeyTypes
       (ConsensusParams.Validator
          (fst (Update (snd (Update σ params params2))
                  (fst (Update σ params params2)) params2)))) =
    slice_elems (snd (Update σ params params2))
      (ValidatorParams.PubKeyTypes
         (ConsensusParams.Validator (fst (Update σ params params2)))).
Proof.
  intros Hdelta. destruct params2 as [u |].
  2: { simpl. destruct params. repeat split. }
  rewrite !Update_present.
  cbn [fst snd ConsensusParams.Block ConsensusParams.Evidence ConsensusParams.Validator
       ConsensusParams.Version ConsensusParams.ABCI ConsensusParams.Synchrony
       ConsensusParams.PBTS ConsensusParams.set_Validator ValidatorParams.PubKeyTypes].
  destruct params as [pblock pevidence pvalidator pversion pabci [pprec pdelay] ppbts].
  destruct u as [block evidence validator version abci synchrony pbts].
  cbn [cmtproto.ConsensusParams.Block cmtproto.ConsensusParams.Evidence
       cmtproto.ConsensusParams.Validator cmtproto.ConsensusParams.Version
       cmtproto.ConsensusParams.Abci cmtproto.ConsensusParams.Synchrony
       cmtproto.ConsensusParams.Pbts ConsensusParams.Synchrony
       SynchronyParams.Precision SynchronyParams.MessageDelay] in *.
  split; [| destruct validator as [[pk] |]; [| split; reflexivity]].
  - destruct block, evidence, validator, version, abci,
      synchrony as [[[?|] [?|]] |], pbts; reflexivity.
  - cbn [ValidatorParams.PubKeyTypes cmtproto.ValidatorParams.PubKeyTypes].
    specialize (Hdelta _ _ eq_refl eq_refl). simpl in Hdelta.
    pose proof (append_to_empty_spec σ pk) as (Hsub & Hlen & Helems & _).
    pose proof (append_to_empty_spec (snd (append_to_empty σ pk)) pk)
      as (_ & Hlen' & Helems' & _).
    split; [congruence |].
    rewrite Helems', Helems. by apply slice_elems_weaken.
Qed.

Lemma Update_twice_witness :
  slice_elems
    (snd (Update (snd (Update Sample.defaults_heap Sample.defaults
                         (Some (ToProto Sample.one_hour_evidence))))
            (fst (Update Sample.defaults_heap Sample.defaults
                    (Some (ToProto Sample.one_hour_evidence))))
            (Some (ToProto Sample.one_hour_evidence))))
    (ValidatorParams.PubKeyTypes
       (ConsensusParams.Validator
          (fst (Update (snd (Update Sample.defaults_heap Sample.defaults
                               (Some (ToProto Sample.one_hour_evidence))))
                  (fst (Update Sample.defaults_heap Sample.defaults
                          (Some (ToProto Sample.one_hour_evidence))))
                  (Some (ToProto Sample.one_hour_evidence)))))) =
  slice_elems
    (snd (Update Sample.defaults_heap Sample.defaults
            (Some (ToProto Sample.one_hour_evidence))))
    (ValidatorParams.PubKeyTypes
       (ConsensusParams.Validator
          (fst (Update Sample.defaults_heap Sample.defaults
                  (Some (ToProto Sample.one_hour_evidence)))))).
Proof.
  apply (Update_twice Sample.defaults_heap Sample.defaults
           (Some (ToProto Sample.one_hour_evidence))).
  intros u v [= <-] [= <-]. right. eexists _, _.
  split; [reflexivity |]. split; [vm_compute; reflexivity |]. simpl. lia.
Defined.

(** X16: the header hash only moves with the Block sub-group: merging a nil
    delta, or one without a Block sub-message, leaves [Hash] as it was. *)
Theorem Hash_after_Update_without_block (M : HashedParamsMarshaler) (H : Hasher)
    (σ : heap) (params : ConsensusParams.t)
    (params2 : option cmtproto.ConsensusParams.t) :
  (forall u, params2 = Some u -> cmtproto.ConsensusParams.Block u = None) ->
  Hash (fst (Update σ params params2)) = Hash params.
Proof.
  intros Hblock. destruct params2 as [u |]; [| reflexivity].
  rewrite Update_present, (Hblock u eq_refl). reflexivity.
Qed.

Lemma Hash_after_Update_without_block_witness :
  @Hash Sample.marshaler Sample.hasher
    (fst (Update Sample.defaults_heap Sample.defaults (Some (Sample.abci_delta 50)))) =
  @Hash Sample.marshaler Sample.hasher Sample.defaults.
Proof.
  apply (Hash_after_Update_without_block Sample.marshaler Sample.hasher
           Sample.defaults_heap Sample.defaults (Some (Sample.abci_delta 50))).
  intros u [= <-]. reflexivity.
Defined.

(** ** Codec, further *)

(** X17: [ConsensusParamsFromProto] returns a set exactly when the Block,
    Evidence, Validator and Version sub-messages are all present; when one
    of them is absent it panics on the nil pointer. *)
Theorem ConsensusParamsFromProto_returns_iff (pbParams : cmtproto.ConsensusParams.t) :
  ((exists c, ConsensusParamsFromProto pbParams = Returns c) <->
   is_Some (cmtproto.ConsensusParams.Block pbParams) /\
   is_Some (cmtproto.ConsensusParams.Evidence pbParams) /\
   is_Some (cmtproto.ConsensusParams.Validator pbParams) /\
   is_Some (cmtproto.ConsensusParams.Version pbParams)) /\
  ((forall c, ConsensusParamsFromProto pbParams <> Returns c) ->
   ConsensusParamsFromProto pbParams = Panics PanicNilDereference).
Proof.
  unfold ConsensusParamsFromProto.
  destruct pbParams as [[block |] [evidence |] [validator |] [version |]
                        abci synchrony pbts]; simpl.
  1: split; [split; [intros _; repeat split; eauto | intros _; eauto] |].
  1: intros Hno; exfalso; eapply Hno; reflexivity.
  all: split; [| reflexivity].
  all: split; [intros [c Hc]; discriminate Hc |].
  all: intros (Hb & He & Hva & Hve);
    first [by destruct Hb | by destruct He | by destruct Hva | by destruct Hve].
Qed.

(** X18: decoding then encoding gives a fully populated message back: when
    [ConsensusParamsFromProto] returns a set for a message whose Abci and
    Pbts sub-messages are present and whose Synchrony sub-message is
    present with both durations, [ToProto] of that set is the message. *)
Theorem ToProto_FromProto (pbParams : cmtproto.ConsensusParams.t)
    (c : ConsensusParams.t) (precision messageDelay : Z) :
  ConsensusParamsFromProto pbParams = Returns c ->
  is_Some (cmtproto.ConsensusParams.Abci pbParams) ->
  is_Some (cmtproto.ConsensusParams.Pbts pbParams) ->
  cmtproto.ConsensusParams.Synchrony pbParams =
    Some (cmtproto.SynchronyParams.mk (Some precision) (Some messageDelay)) ->
  ToProto c = pbParams.
Proof.
  unfold ConsensusParamsFromProto.
  destruct pbParams as [[[bmax bgas] |] [[eblocks eage ebytes] |] [[pk] |] [[app] |]
                        abci synchrony pbts]; simpl; try discriminate.
  intros Hc [[a] ->] [[p] ->] ->. simpl in Hc. injection Hc as <-. reflexivity.
Qed.

Lemma ToProto_FromProto_witness :
  ToProto Sample.one_hour_evidence = ToProto Sample.one_hour_evidence.
Proof.
  apply (ToProto_FromProto (ToProto Sample.one_hour_evidence) Sample.one_hour_evidence
           500000000 2000000000); [reflexivity | by eexists | by eexists | reflexivity].
Defined.

(** X19: the optional part of a decoded set is what the nil-safe getters
    give: the two enable heights are those of the Abci and Pbts
    sub-messages, or 0 when absent, and each Synchrony duration is the one
    carried, or 0 when the sub-message or that duration is absent; the key
    types share the array of the message. *)
Theorem ConsensusParamsFromProto_optional (pbParams : cmtproto.ConsensusParams.t)
    (c : ConsensusParams.t) :
  ConsensusParamsFromProto pbParams = Returns c ->
  ABCIParams.VoteExtensionsEnableHeight (ConsensusParams.ABCI c) =
    cmtproto.ABCIParams.GetVoteExtensionsEnableHeight
      (cmtproto.ConsensusParams.Abci pbParams) /\
  PBTSParams.PBTSEnableHeight (ConsensusParams.PBTS c) =
    cmtproto.PBTSParams.GetPbtsEnableHeight (cmtproto.ConsensusParams.Pbts pbParams) /\
  SynchronyParams.MessageDelay (ConsensusParams.Synchrony c) =
    default 0 (cmtproto.SynchronyParams.GetMessageDelay
                 (cmtproto.ConsensusParams.Synchrony pbParams)) /\
  SynchronyParams.Precision (ConsensusParams.Synchrony c) =
    default 0 (cmtproto.SynchronyParams.GetPrecision
                 (cmtproto.ConsensusParams.Synchrony pbParams)) /\
  cmtproto.ConsensusParams.Validator pbParams =
    Some (cmtproto.ValidatorParams.mk
            (ValidatorParams.PubKeyTypes (ConsensusParams.Validator c))).
Proof.
  unfold ConsensusParamsFromProto.
  destruct pbParams as [[block |] [evidence |] [[pk] |] [version |]
                        abci synchrony pbts]; simpl; try discriminate.
  intros [= <-].
  destruct abci, synchrony as [[[?|] [?|]] |], pbts; repeat split.
Qed.

Lemma ConsensusParamsFromProto_optional_witness :
  exists c,
    ConsensusParamsFromProto
      (cmtproto.ConsensusParams.mk
         (Some (cmtproto.BlockParams.mk 4194304 10000000))
         (Some (cmtproto.EvidenceParams.mk 100000 172800000000000 1048576))
         (Some (cmtproto.ValidatorParams.mk nil_slice))
         (Some (cmtproto.VersionParams.mk 0)) None
         (Some (cmtproto.SynchronyParams.mk None (Some 7))) None) = Returns c /\
    SynchronyParams.MessageDelay (ConsensusParams.Synchrony c) = 7 /\
    SynchronyParams.Precision (ConsensusParams.Synchrony c) = 0.
Proof.
  eexists. split; [reflexivity |].
  pose proof (ConsensusParamsFromProto_optional
                (cmtproto.ConsensusParams.mk
                   (Some (cmtproto.BlockParams.mk 4194304 10000000))
                   (Some (cmtproto.EvidenceParams.mk 100000 172800000000000 1048576))
                   (Some (cmtproto.ValidatorParams.mk nil_slice))
                   (Some (cmtproto.VersionParams.mk 0)) None
                   (Some (cmtproto.SynchronyParams.mk None (Some 7))) None)
                _ eq_refl) as (_ & _ & Hdelay & Hprec & _).
  split; [exact Hdelay | exact Hprec].
Defined.

(** ** Activation predicates, further *)

(** X20: activation is monotone in the height: once a predicate holds at a
    height it holds at every later height, and it never holds below the
    enable height. *)
Theorem activation_monotone (a : ABCIParams.t) (p : PBTSParams.t) (h h' : Z) :
  h <= h' ->
  (VoteExtensionsEnabled a h = Returns true ->
     VoteExtensionsEnabled a h' = Returns true /\
     ABCIParams.VoteExtensionsEnableHeight a <= h) /\
  (PBTSEnabled p h = Returns true ->
     PBTSEnabled p h' = Returns true /\ PBTSParams.PBTSEnableHeight p <= h).
Proof.
  intros Hle. unfold VoteExtensionsEnabled, PBTSEnabled.
  split; intros Hon; revert Hon; zcases; intros; (discriminate || (split; [done | lia])).
Qed.

Lemma activation_monotone_witness :
  VoteExtensionsEnabled (ABCIParams.mk 5) 9 = Returns true /\
  PBTSEnabled (PBTSParams.mk 6) 9 = Returns true.
Proof.
  destruct (activation_monotone (ABCIParams.mk 5) (PBTSParams.mk 6) 6 9) as [Hve Hpbts];
    [lia |].
  split; [apply Hve | apply Hpbts]; reflexivity.
Defined.

(** ** The forum application's vote extensions *)

Lemma strings_Split_nonempty (s : string) (sep : Ascii.ascii) : Forum.strings_Split s sep <> [].
Proof.
  destruct s as [| c rest]; simpl; [done |].
  destruct (Ascii.eqb c sep); [done |]. by destruct (Forum.strings_Split rest sep).
Qed.

(** X21: splitting at a separator loses nothing and leaves no separator
    behind: joining the pieces with the separator gives the string back,
    no piece contains the separator, and there is at least one piece (the
    empty string splits into one empty piece). *)
Theorem strings_Split_Join (s : string) (sep : Ascii.ascii) :
  Forum.strings_Join (Forum.strings_Split s sep) sep = s /\
  Forall (fun word => ~ In sep (String.list_ascii_of_string word)) (Forum.strings_Split s sep) /\
  (0 < length (Forum.strings_Split s sep))%nat.
Proof.
  split; [| split].
  - induction s as [| c rest IH]; simpl; [reflexivity |].
    destruct (Ascii.eqb_spec c sep) as [-> | Hne].
    + pose proof (strings_Split_nonempty rest sep) as Hne.
      simpl. destruct (Forum.strings_Split rest sep) as [| w ws]; [done |].
      simpl in *. by rewrite IH.
    + pose proof (strings_Split_nonempty rest sep) as Hnil.
      destruct (Forum.strings_Split rest sep) as [| w ws]; [done |].
      simpl in *. destruct ws; simpl in *; by rewrite <- IH.
  - induction s as [| c rest IH]; simpl; [repeat constructor; simpl; tauto |].
    destruct (Ascii.eqb_spec c sep) as [-> | Hne].
    + constructor; [simpl; tauto | exact IH].
    + destruct (Forum.strings_Split rest sep) as [| w ws].
      * repeat constructor. simpl. intros [? | []]. done.
      * apply Forall_cons in IH as [Hw Hws]. constructor; [| exact Hws].
        simpl. intros [? | ?]; done.
  - pose proof (strings_Split_nonempty s sep).
    destruct (Forum.strings_Split s sep); [done | simpl; lia].
Qed.

(** The map built from the words has as many keys as there are words
    exactly when no word is repeated. *)
Lemma insert_words_size (words : list string) (m : gmap string unit) :
  (size (foldl (fun m word => <[word := tt]> m) m words) <= size m + length words)%nat /\
  (size (foldl (fun m word => <[word := tt]> m) m words) = (size m + length words)%nat <->
   NoDup words /\ Forall (fun word => m !! word = None) words).
Proof.
  revert m. induction words as [| w ws IH]; intros m; simpl.
  - split; [lia |]. split; [intros _; split; constructor | lia].
  - destruct (IH (<[w := tt]> m)) as [Hle Heq].
    rewrite NoDup_cons, Forall_cons.
    destruct (m !! w) as [[] |] eqn:Hw.
    + rewrite map_size_insert_Some in Hle by done.
      split; [lia |]. split; [lia | intros [_ [? _]]; done].
    + rewrite map_size_insert_None in Hle, Heq by done.
      split; [lia |].
      replace (size m + S (length ws))%nat with (S (size m) + length ws)%nat by lia.
      rewrite Heq, !Forall_forall. split.
      * intros [Hnodup Hfresh]. split; [split; [| done] | split; [done |]].
        -- intros Hin. specialize (Hfresh _ Hin). by rewrite lookup_insert_eq in Hfresh.
        -- intros w' Hin. specialize (Hfresh _ Hin).
           destruct (decide (w = w')) as [-> | Hne]; [done |].
           by rewrite lookup_insert_ne in Hfresh.
      * intros [[Hnotin Hnodup] [_ Hfresh]]. split; [done |].
        intros w' Hin. rewrite lookup_insert_ne; [by apply Hfresh |].
        intros ->. done.
Qed.

(** The three outcomes of [VerifyVoteExtension]. *)
Lemma VerifyVoteExtension_cases {PubKey : Type} (app : Forum.ForumApp PubKey)
    (req : Forum.RequestVerifyVoteExtension) :
  (Forum.valAddrToPubKeyMap app !! Forum.ValidatorAddress req = None ->
     Forum.VerifyVoteExtension app req =
     Panics (PanicError (fmt_Errorf "unknown validator" []))) /\
  (is_Some (Forum.valAddrToPubKeyMap app !! Forum.ValidatorAddress req) ->
     (NoDup (Forum.strings_Split (Forum.VoteExtension req) "|"%char) ->
        Forum.VerifyVoteExtension app req =
        Returns (Forum.ResponseVerifyVoteExtension_ACCEPT, None)) /\
     (~ NoDup (Forum.strings_Split (Forum.VoteExtension req) "|"%char) ->
        Forum.VerifyVoteExtension app req =
        Returns (Forum.ResponseVerifyVoteExtension_REJECT, None))).
Proof.
  unfold Forum.VerifyVoteExtension, Forum.curse_word_map. split.
  - intros ->. reflexivity.
  - intros [pk ->].
    pose proof (insert_words_size
                  (Forum.strings_Split (Forum.VoteExtension req) "|"%char) ∅) as [Hle Heq].
    rewrite map_size_empty in Hle, Heq. simpl in Hle, Heq.
    cbv zeta.
    destruct (Nat.ltb_spec
                (size (foldl (fun m word => <[word := tt]> m) (∅ : gmap string unit)
                         (Forum.strings_Split (Forum.VoteExtension req) "|"%char)))
                (length (Forum.strings_Split (Forum.VoteExtension req) "|"%char)))
      as [Hlt | Hge]; split; intros Hdup; try reflexivity; exfalso.
    + assert (size (foldl (fun m word => <[word := tt]> m) (∅ : gmap string unit)
                      (Forum.strings_Split (Forum.VoteExtension req) "|"%char)) =
              length (Forum.strings_Split (Forum.VoteExtension req) "|"%char)) as Heq'.
      { apply Heq. split; [exact Hdup |]. apply Forall_forall. intros w _.
        apply lookup_empty. }
      lia.
    + apply Hdup. apply Heq. lia.
Qed.

(** X22: [VerifyVoteExtension] panics for a validator address that is not
    in the application's map, whatever the extension; for a known
    validator it never fails, accepts when the words between the bars of
    the extension are pairwise different, and rejects when a word is
    repeated. *)
Theorem VerifyVoteExtension_spec {PubKey : Type} (app : Forum.ForumApp PubKey)
    (req : Forum.RequestVerifyVoteExtension) :
  (Forum.valAddrToPubKeyMap app !! Forum.ValidatorAddress req = None ->
     Forum.VerifyVoteExtension app req =
     Panics (PanicError (fmt_Errorf "unknown validator" []))) /\
  (is_Some (Forum.valAddrToPubKeyMap app !! Forum.ValidatorAddress req) ->
     (NoDup (Forum.strings_Split (Forum.VoteExtension req) "|"%char) ->
        Forum.VerifyVoteExtension app req =
        Returns (Forum.ResponseVerifyVoteExtension_ACCEPT, None)) /\
     (~ NoDup (Forum.strings_Split (Forum.VoteExtension req) "|"%char) ->
        Forum.VerifyVoteExtension app req =
        Returns (Forum.ResponseVerifyVoteExtension_REJECT, None))).
Proof. exact (VerifyVoteExtension_cases app req). Qed.

Lemma VerifyVoteExtension_spec_witness :
  Forum.VerifyVoteExtension
    (Forum.Build_ForumApp unit "darn|heck" {[ "val1" := tt ]})
    (Forum.Build_RequestVerifyVoteExtension "val2" "darn|heck") =
    Panics (PanicError (fmt_Errorf "unknown validator" [])) /\
  Forum.VerifyVoteExtension
    (Forum.Build_ForumApp unit "darn|heck" {[ "val1" := tt ]})
    (Forum.Build_RequestVerifyVoteExtension "val1" "darn|heck") =
    Returns (Forum.ResponseVerifyVoteExtension_ACCEPT, None) /\
  Forum.VerifyVoteExtension
    (Forum.Build_ForumApp unit "darn|heck" {[ "val1" := tt ]})
    (Forum.Build_RequestVerifyVoteExtension "val1" "darn||heck|") =
    Returns (Forum.ResponseVerifyVoteExtension_REJECT, None).
Proof.
  split; [| split].
  - apply (VerifyVoteExtension_spec (Forum.Build_ForumApp unit "darn|heck" {[ "val1" := tt ]})
             (Forum.Build_RequestVerifyVoteExtension "val2" "darn|heck")).
    vm_compute. reflexivity.
  - apply (VerifyVoteExtension_spec (Forum.Build_ForumApp unit "darn|heck" {[ "val1" := tt ]})
             (Forum.Build_RequestVerifyVoteExtension "val1" "darn|heck")).
    + vm_compute. eauto.
    + simpl. apply NoDup_cons. split; [| apply NoDup_singleton].
      intros Hin%list_elem_of_singleton. discriminate Hin.
  - apply (VerifyVoteExtension_spec (Forum.Build_ForumApp unit "darn|heck" {[ "val1" := tt ]})
             (Forum.Build_RequestVerifyVoteExtension "val1" "darn||heck|")).
    + vm_compute. eauto.
    + simpl. intros Hnodup. apply NoDup_cons in Hnodup as [_ Hnodup].
      apply NoDup_cons in Hnodup as [Hnotin _]. apply Hnotin.
      rewrite !elem_of_cons. eauto.
Defined.

(** X23: an extension without a bar, the empty one included, is a single
    word and is accepted from every known validator. *)
Theorem VerifyVoteExtension_single_word {PubKey : Type} (app : Forum.ForumApp PubKey)
    (req : Forum.RequestVerifyVoteExtension) :
  is_Some (Forum.valAddrToPubKeyMap app !! Forum.ValidatorAddress req) ->
  ~ In "|"%char (String.list_ascii_of_string (Forum.VoteExtension req)) ->
  Forum.strings_Split (Forum.VoteExtension req) "|"%char = [Forum.VoteExtension req] /\
  Forum.VerifyVoteExtension app req =
  Returns (Forum.ResponseVerifyVoteExtension_ACCEPT, None).
Proof.
  intros Hknown Hbar.
  assert (Forum.strings_Split (Forum.VoteExtension req) "|"%char = [Forum.VoteExtension req])
    as Hsplit.
  { induction (Forum.VoteExtension req) as [| c rest IH]; simpl in *; [reflexivity |].
    destruct (Ascii.eqb_spec c "|"%char) as [-> | Hne]; [tauto |].
    rewrite IH by tauto. reflexivity. }
  split; [exact Hsplit |].
  apply VerifyVoteExtension_cases; [exact Hknown |].
  rewrite Hsplit. apply NoDup_singleton.
Qed.

Lemma VerifyVoteExtension_single_word_witness :
  Forum.strings_Split "" "|"%char = [""] /\
  Forum.VerifyVoteExtension
    (Forum.Build_ForumApp unit "darn|heck" {[ "val1" := tt ]})
    (Forum.Build_RequestVerifyVoteExtension "val1" "") =
    Returns (Forum.ResponseVerifyVoteExtension_ACCEPT, None).
Proof.
  apply (VerifyVoteExtension_single_word
           (Forum.Build_ForumApp unit "darn|heck" {[ "val1" := tt ]})
           (Forum.Build_RequestVerifyVoteExtension "val1" "")).
  - vm_compute. eauto.
  - simpl. tauto.
Defined.

(** ** Merging, validity and the wire form *)

(** X9: what a delta carries is what the encoding of the merged set
    shows: for each of the Block, Evidence, Version, Abci and Pbts
    sub-messages present in the delta, and for a Synchrony sub-message
    with both durations, [ToProto] of the result has that very
    sub-message. *)
Theorem ToProto_after_Update (σ : heap) (params : ConsensusParams.t)
    (u : cmtproto.ConsensusParams.t) :
  (is_Some (cmtproto.ConsensusParams.Block u) ->
     cmtproto.ConsensusParams.Block (ToProto (fst (Update σ params (Some u)))) =
     cmtproto.ConsensusParams.Block u) /\
  (is_Some (cmtproto.ConsensusParams.Evidence u) ->
     cmtproto.ConsensusParams.Evidence (ToProto (fst (Update σ params (Some u)))) =
     cmtproto.ConsensusParams.Evidence u) /\
  (is_Some (cmtproto.ConsensusParams.Version u) ->
     cmtproto.ConsensusParams.Version (ToProto (fst (Update σ params (Some u)))) =
     cmtproto.ConsensusParams.Version u) /\
  (is_Some (cmtproto.ConsensusParams.Abci u) ->
     cmtproto.ConsensusParams.Abci (ToProto (fst (Update σ params (Some u)))) =
     cmtproto.ConsensusParams.Abci u) /\
  (is_Some (cmtproto.ConsensusParams.Pbts u) ->
     cmtproto.ConsensusParams.Pbts (ToProto (fst (Update σ params (Some u)))) =
     cmtproto.ConsensusParams.Pbts u) /\
  (forall precision messageDelay,
     cmtproto.ConsensusParams.Synchrony u =
       Some (cmtproto.SynchronyParams.mk (Some precision) (Some messageDelay)) ->
     cmtproto.ConsensusParams.Synchrony (ToProto (fst (Update σ params (Some u)))) =
     cmtproto.ConsensusParams.Synchrony u).
Proof.
  rewrite Update_present. unfold ToProto. simpl.
  repeat split.
  - intros [[bmax bgas] ->]. reflexivity.
  - intros [[eblocks eage ebytes] ->]. reflexivity.
  - intros [[app] ->]. reflexivity.
  - intros [[next] ->]. reflexivity.
  - intros [[next] ->]. reflexivity.
  - intros precision messageDelay ->. reflexivity.
Qed.

Lemma ToProto_after_Update_witness :
  cmtproto.ConsensusParams.Abci
    (ToProto (fst (Update Sample.defaults_heap Sample.defaults
                     (Some (Sample.abci_pbts_delta 99 50))))) =
    Some (cmtproto.ABCIParams.mk 99) /\
  cmtproto.ConsensusParams.Pbts
    (ToProto (fst (Update Sample.defaults_heap Sample.defaults
                     (Some (Sample.abci_pbts_delta 99 50))))) =
    Some (cmtproto.PBTSParams.mk 50).
Proof.
  destruct (ToProto_after_Update Sample.defaults_heap Sample.defaults
              (Sample.abci_pbts_delta 99 50)) as (_ & _ & _ & Habci & Hpbts & _).
  split; [apply Habci | apply Hpbts]; by eexists.
Defined.

(** X24: the verdict of [ValidateBasic] does not change when the heap
    grows, as long as the key types of the set are backed by an allocated
    array: later allocations, those of [Update] included, cannot turn a
    valid set into an invalid one or the reverse. *)
Theorem ValidateBasic_heap_grows (keys : KeyTypes) (σ σ' : heap)
    (params : ConsensusParams.t) :
  σ ⊆ σ' ->
  slice_backed σ (ValidatorParams.PubKeyTypes (ConsensusParams.Validator params)) ->
  ValidateBasic σ' params = ValidateBasic σ params.
Proof.
  intros Hsub Hbacked. unfold ValidateBasic.
  by rewrite (slice_elems_weaken σ σ' _ Hsub Hbacked).
Qed.

Lemma ValidateBasic_heap_grows_witness :
  @ValidateBasic Sample.key_types
    (snd (Update Sample.defaults_heap Sample.defaults (Some (ToProto Sample.defaults))))
    Sample.defaults =
  @ValidateBasic Sample.key_types Sample.defaults_heap Sample.defaults.
Proof.
  apply (ValidateBasic_heap_grows Sample.key_types Sample.defaults_heap
           (snd (Update Sample.defaults_heap Sample.defaults (Some (ToProto Sample.defaults))))
           Sample.defaults).
  - apply Update_heap_grows.
  - right. eexists _, _. split; [reflexivity |]. split; [vm_compute; reflexivity |].
    simpl. lia.
Defined.

(** X25: merging the encoding of a valid set gives a valid set, whatever
    the set it is merged into: validity is decided by the values alone,
    and the copy of the key types reads like the original. *)
Theorem Update_with_valid_encoding (keys : KeyTypes) (σ : heap)
    (params q : ConsensusParams.t) :
  ValidateBasic σ q = None ->
  ValidateBasic (snd (Update σ params (Some (ToProto q))))
                (fst (Update σ params (Some (ToProto q)))) = None.
Proof.
  intros Hvalid.
  destruct (Update_encoding_fields σ params q) as (Hfields & Hlen & Helems).
  apply ValidateBasic_none_iff in Hvalid. apply ValidateBasic_none_iff.
  rewrite Hlen, Helems.
  destruct (fst (Update σ params (Some (ToProto q)))) as [b e v ver a sy pb].
  destruct q as [qb qe qv qver qa qsy qpb].
  injection Hfields as -> -> -> -> -> ->. exact Hvalid.
Qed.

Lemma Update_with_valid_encoding_witness :
  @ValidateBasic Sample.key_types
    (snd (Update Sample.defaults_heap Sample.evidence_max_bytes_zero
            (Some (ToProto Sample.defaults))))
    (fst (Update Sample.defaults_heap Sample.evidence_max_bytes_zero
            (Some (ToProto Sample.defaults)))) = None.
Proof.
  apply (Update_with_valid_encoding Sample.key_types Sample.defaults_heap
           Sample.evidence_max_bytes_zero Sample.defaults).
  vm_compute. reflexivity.
Defined.

Lemma ConsensusParamsFromProto_returns_iff_witness :
  (exists c, ConsensusParamsFromProto (ToProto Sample.defaults) = Returns c) /\
  ConsensusParamsFromProto (Sample.abci_delta 50) = Panics PanicNilDereference.
Proof.
  split.
  - apply (ConsensusParamsFromProto_returns_iff (ToProto Sample.defaults)).
    repeat split; by eexists.
  - apply (ConsensusParamsFromProto_returns_iff (Sample.abci_delta 50)).
    intros c Hc. discriminate Hc.
Defined.

(** X26: the extension that [ExtendVote] produces is the application's
    curse words, without error, and a known validator's
    [VerifyVoteExtension] accepts it exactly when no word is repeated in
    them. *)
Theorem own_extension_verified {PubKey : Type} (app : Forum.ForumApp PubKey)
    (address : string) :
  Forum.ExtendVote app = (Forum.CurseWords app, None) /\
  (is_Some (Forum.valAddrToPubKeyMap app !! address) ->
   (Forum.VerifyVoteExtension app
      (Forum.Build_RequestVerifyVoteExtension address (fst (Forum.ExtendVote app))) =
    Returns (Forum.ResponseVerifyVoteExtension_ACCEPT, None) <->
    NoDup (Forum.strings_Split (Forum.CurseWords app) "|"%char)) /\
   (Forum.VerifyVoteExtension app
      (Forum.Build_RequestVerifyVoteExtension address (fst (Forum.ExtendVote app))) =
    Returns (Forum.ResponseVerifyVoteExtension_REJECT, None) <->
    ~ NoDup (Forum.strings_Split (Forum.CurseWords app) "|"%char))).
Proof.
  split; [reflexivity |]. intros Hknown.
  destruct (VerifyVoteExtension_cases app
              (Forum.Build_RequestVerifyVoteExtension address (fst (Forum.ExtendVote app))))
    as [_ Hspec].
  destruct (Hspec Hknown) as [Hacc Hrej]. simpl in *.
  destruct (decide (NoDup (Forum.strings_Split (Forum.CurseWords app) "|"%char)))
    as [Hnodup | Hdup].
  - rewrite (Hacc Hnodup). split; split; [done | done | discriminate | done].
  - rewrite (Hrej Hdup). split; split; [discriminate | done | done | done].
Qed.

Lemma own_extension_verified_witness :
  Forum.VerifyVoteExtension
    (Forum.Build_ForumApp unit "darn|heck" {[ "val1" := tt ]})
    (Forum.Build_RequestVerifyVoteExtension "val1" "darn|heck") =
    Returns (Forum.ResponseVerifyVoteExtension_ACCEPT, None) <->
  NoDup (Forum.strings_Split "darn|heck" "|"%char).
Proof.
  destruct (own_extension_verified
              (Forum.Build_ForumApp unit "darn|heck" {[ "val1" := tt ]}) "val1")
    as [_ Hverdict].
  apply Hverdict. vm_compute. eauto.
Defined.
